(** * HelpSignal backend: the event enrichment pipeline of [scripts/main.py]

    A shallow embedding of the per-item pipeline ([process_event] and the
    enrichment, sink and posting functions it calls), of the source adapters
    and [main], of [post_crisis_tweet] of [scripts/tweet_bot.py] and of
    [upload_event] of [scripts/gcs_uploader.py].

    Python text is a sequence of Unicode code points, so a [str] is a list of
    code points ([N]): [len], slices and concatenation are exact, and the
    siren sign that opens a post is the single code point U+1F6A8.  The
    character classes ([str.isspace], [str.isdigit]) and the case mappings
    ([str.lower], [str.upper]) are those of Python on ASCII; a code point
    above 127 is carried through unchanged and counts as caseless, not a
    digit and not white space.

    External collaborators (the chat completion service, the geocoder, the
    spreadsheet, the bucket, the posting API, the clock and the UUID source)
    are oracles of a [World]; what the program asks of them is recorded, in
    order, in the [trace] of the [State]. *)

From Stdlib Require Import List NArith ZArith Bool Ascii String Lia PrimFloat.
From Stdlib Require DecimalString.
Import ListNotations.


(* ===================================================================== *)
(** ** Python strings *)
(* ===================================================================== *)

Module Py.

Definition codepoint := N.
Definition str := list codepoint.

(** A string literal of the source (ASCII only). *)
Definition py (s : string) : str := map N_of_ascii (list_ascii_of_string s).

Definition chr (a : ascii) : codepoint := N_of_ascii a.

Definition nl : codepoint := 10%N.

(** [str.isspace] on one ASCII character: TAB, LF, VT, FF, CR, FS, GS, RS,
    US and the space. *)
Definition isspace (c : codepoint) : bool :=
  ((9 <=? c) && (c <=? 13) || (28 <=? c) && (c <=? 32))%N.

(** [str.isdigit] on one ASCII character. *)
Definition isdigit (c : codepoint) : bool := ((48 <=? c) && (c <=? 57))%N.

Definition lower_char (c : codepoint) : codepoint :=
  if ((65 <=? c) && (c <=? 90))%N then (c + 32)%N else c.

Definition upper_char (c : codepoint) : codepoint :=
  if ((97 <=? c) && (c <=? 122))%N then (c - 32)%N else c.

Definition lower (s : str) : str := map lower_char s.
Definition upper (s : str) : str := map upper_char s.

(** [s.startswith(p)] *)
Fixpoint startswith (s p : str) : bool :=
  match p, s with
  | [], _ => true
  | _ :: _, [] => false
  | a :: p', b :: s' => (a =? b)%N && startswith s' p'
  end.

(** [k in s] for strings: [k] occurs in [s] as a contiguous run. *)
Fixpoint str_in (k s : str) : bool :=
  startswith s k ||
  match s with
  | [] => false
  | _ :: r => str_in k r
  end.

(** [s.lstrip()], [s.rstrip()], [s.strip()] *)
Fixpoint lstrip (s : str) : str :=
  match s with
  | [] => []
  | c :: r => if isspace c then lstrip r else s
  end.

Fixpoint rstrip (s : str) : str :=
  match s with
  | [] => []
  | c :: r =>
      match rstrip r with
      | [] => if isspace c then [] else [c]
      | r' => c :: r'
      end
  end.

Definition strip (s : str) : str := rstrip (lstrip s).

(** [s.split(sep)] for a one-character separator: never the empty list. *)
Fixpoint split (sep : codepoint) (s : str) : list str :=
  match s with
  | [] => [[]]
  | c :: r =>
      if (c =? sep)%N then [] :: split sep r
      else match split sep r with
           | [] => [[c]]
           | h :: t => (c :: h) :: t
           end
  end.

(** [s.split(sep, 1)]: cut at the first separator only. *)
Fixpoint split1 (sep : codepoint) (s : str) : list str :=
  match s with
  | [] => [[]]
  | c :: r =>
      if (c =? sep)%N then [[]; r]
      else match split1 sep r with
           | [] => [[c]]
           | h :: t => (c :: h) :: t
           end
  end.

(** [s.replace(old, new)] for one-character [old] and [new]. *)
Definition replace (old new : codepoint) (s : str) : str :=
  map (fun c => if (c =? old)%N then new else c) s.

(** [str(n)] for an integer. *)
Definition str_of_Z (z : Z) : str :=
  py (DecimalString.NilZero.string_of_int (Z.to_int z)).

(** Truthiness of a string: [bool(s)]. *)
Definition truthy (s : str) : bool :=
  match s with [] => false | _ :: _ => true end.

(** [a == b] *)
Fixpoint str_eqb (a b : str) : bool :=
  match a, b with
  | [], [] => true
  | x :: a', y :: b' => (x =? y)%N && str_eqb a' b'
  | _, _ => false
  end.

End Py.
Import Py.

(* ===================================================================== *)
(** ** Exceptions *)
(* ===================================================================== *)

Inductive exn : Type :=
| ValueError
| IndexError
| KeyError
| ImportError
| RuntimeError
| CollaboratorError.   (* transport failure, bad status, malformed payload *)

Inductive res (A : Type) : Type :=
| Ok (a : A)
| Exc (e : exn).
Arguments Ok {A} a.
Arguments Exc {A} e.

(** [try: r  except ValueError: d] *)
Definition except_ValueError {A} (r : res A) (d : res A) : res A :=
  match r with
  | Exc ValueError => d
  | _ => r
  end.

(** [a, b = l] *)
Definition unpack2 {A} (l : list A) : res (A * A) :=
  match l with
  | [a; b] => Ok (a, b)
  | _ => Exc ValueError
  end.

(** [l[0]] *)
Definition item0 {A} (l : list A) : res A :=
  match l with
  | [] => Exc IndexError
  | a :: _ => Ok a
  end.

(** [int(s)]: surrounding white space is dropped, one sign is allowed, and
    the digits may be grouped by single underscores; anything else is a
    [ValueError].  The interpreter's optional limit on the number of digits
    that [int] converts is not modelled. *)
Fixpoint int_digits (s : str) (acc : Z) (after_digit : bool) : res Z :=
  match s with
  | [] => if after_digit then Ok acc else Exc ValueError
  | c :: r =>
      if isdigit c then int_digits r (10 * acc + (Z.of_N c - 48)) true
      else if (c =? chr "_")%N
           then if after_digit then int_digits r acc false else Exc ValueError
           else Exc ValueError
  end.

Definition py_int (s : str) : res Z :=
  match strip s with
  | c :: r =>
      if (c =? chr "-")%N then
        match int_digits r 0 false with Ok z => Ok (- z)%Z | Exc e => Exc e end
      else if (c =? chr "+")%N then int_digits r 0 false
      else int_digits (c :: r) 0 false
  | [] => Exc ValueError
  end.

Notation "x <-! c ;; k" := (match c with Ok x => k | Exc e => Exc e end)
  (at level 61, c at next level, right associativity).

(** [for x in l: acc = body(acc, x)], stopping at the first exception. *)
Fixpoint for_each {A B} (body : B -> A -> res B) (l : list A) (acc : B) : res B :=
  match l with
  | [] => Ok acc
  | x :: r => acc' <-! body acc x ;; for_each body r acc'
  end.

(* ===================================================================== *)
(** ** Pure parts of the enrichment stage *)
(* ===================================================================== *)

(** [extract_location] (main.py, 345-349): the body is the docstring alone,
    so every call evaluates to Python's [None]. *)
Definition extract_location (text : str) : option str := None.

(** [x or d] for a value that is [None] or a string. *)
Definition or_default (x : option str) (d : str) : str :=
  match x with
  | Some (c :: r) => c :: r
  | _ => d
  end.

(** Formatting a value that is [None] or a string inside an f-string. *)
Definition fmt (x : option str) : str :=
  match x with
  | Some s => s
  | None => py "None"
  end.

(** [classify_crisis], lines 383-385: from the message content to the
    result. *)
Definition classify_content (content : str) : str :=
  let classification := upper (strip content) in
  if str_in (py "CRISIS") classification then py "CRISIS" else py "NOT CRISIS".

(** [estimate_impact], lines 429-440: the body of the loop over lines. *)
Definition impact_line (acc : Z * Z) (line : str) : res (Z * Z) :=
  let '(people, severity) := acc in
  if str_in (py ":") line then
    kv <-! unpack2 (split1 (chr ":") line) ;;
    let '(key, value) := kv in
    if startswith (strip (lower key)) (py "people") then
      people' <-! except_ValueError (py_int (filter isdigit value)) (Ok 0%Z) ;;
      Ok (people', severity)
    else if startswith (strip (lower key)) (py "severity") then
      severity' <-! except_ValueError (py_int (filter isdigit value)) (Ok 0%Z) ;;
      Ok (people, severity')
    else Ok (people, severity)
  else Ok (people, severity).

(** [estimate_impact], lines 424-442: from the message content to the
    returned pair. *)
Definition impact_of_content (content0 : str) : res (Z * Z) :=
  let content := strip content0 in
  for_each impact_line (split nl content) (0%Z, 0%Z).

(** [suggest_donations], lines 516-521. *)
Definition donations_of_content (content0 : str) : list str :=
  let content := strip content0 in
  let links :=
    map strip
      (filter (fun item => truthy (strip item))
         (split (chr ",") (replace nl (chr ",") content))) in
  firstn 3 links.

Definition fallback_links : list str :=
  [py "https://www.directrelief.org/"; py "https://www.unhcr.org/"].

(** [infer_event_type], lines 720-737.  [any(k in lower for k in ks)] is
    [existsb]. *)
Definition infer_event_type (text : str) : str :=
  let lower := lower text in
  if existsb (fun k => str_in k lower) [py "war"; py "conflict"; py "battle"]
  then py "War"
  else if existsb (fun k => str_in k lower) [py "famine"; py "hunger"; py "starvation"]
  then py "Famine"
  else if existsb (fun k => str_in k lower)
            [py "flood"; py "storm"; py "hurricane"; py "typhoon"]
  then py "Flood"
  else if existsb (fun k => str_in k lower) [py "earthquake"; py "quake"]
  then py "Earthquake"
  else if existsb (fun k => str_in k lower) [py "drought"]
  then py "Drought"
  else py "Other".



Definition event_types : list str :=
  [py "War"; py "Famine"; py "Flood"; py "Earthquake"; py "Drought"; py "Other"].


(** The number written by the digit characters of a text, most significant
    first; 0 when there is none. *)
Definition digits_value (s : str) : Z :=
  fold_left (fun acc c => (10 * acc + (Z.of_N c - 48))%Z) (filter isdigit s) 0%Z.

(** [k] occurs in [s]. *)
Definition occurs (k s : str) : Prop := exists a b, s = a ++ k ++ b.

(* ===================================================================== *)
(** ** Configuration, collaborators and the record *)
(* ===================================================================== *)

(** The environment variables read at import time ([os.environ.get]: [None]
    when unset) and which optional libraries were importable. *)
Record Config : Type := {
  OPENAI_API_KEY : option str;
  OPENCAGE_API_KEY : option str;
  GOOGLE_SERVICE_ACCOUNT_JSON : option str;
  GOOGLE_SHEET_ID : option str;
  GCS_BUCKET_NAME : option str;
  TWITTER_CONSUMER_KEY : option str;
  TWITTER_CONSUMER_SECRET : option str;
  TWITTER_ACCESS_TOKEN : option str;
  TWITTER_ACCESS_TOKEN_SECRET : option str;
  google_api_libs : bool;   (* service_account and build are not None *)
  storage_lib : bool;       (* storage is not None *)
  tweepy_lib : bool         (* import tweepy succeeds *)
}.

(** [bool(v)] for an environment value. *)
Definition is_set (v : option str) : bool :=
  match v with
  | Some (_ :: _) => true
  | _ => false
  end.

Record ChatRequest : Type := {
  model : str;
  system : str;
  user : str;
  max_tokens : N;
  temperature : float
}.

(** The [geometry] object of one geocoding result; a missing key is
    [None]. *)
Record Geometry : Type := {
  g_lat : option float;
  g_lng : option float
}.

Inductive GeoReply : Type :=
| GeoRaises                                   (* get, raise_for_status or json raised *)
| GeoData (results : list (option Geometry)). (* data.get("results"); None: no "geometry" key *)

(** A cell of the spreadsheet row.  [CJson l] stands for [json.dumps(l)]. *)
Inductive Cell : Type :=
| CStr (s : str)
| CFloat (f : float)
| CInt (z : Z)
| CJson (l : list str).

Definition Row := list Cell.

Record EventRecord : Type := {
  timestamp : str;
  event_id : str;
  location : str;
  lat : float;
  lng : float;
  event_type : str;
  title : option str;
  description : option str;
  summary : str;
  people_affected : Z;
  severity_score : Z;
  donation_links : list str;
  source_url : option str
}.

(** An item as the source adapters build it: every key is present and a
    value may be [None]. *)
Record Article : Type := {
  a_title : option str;
  a_description : option str;
  a_url : option str;
  a_location : option str
}.

(** [datetime.now(timezone.utc)], with the renderings the program uses. *)
Record DateTime : Type := {
  isoformat : str;
  fmt_Y : str;
  fmt_m : str;
  fmt_d : str
}.

(** What the program does to the outside, in order. *)
Inductive Event : Type :=
| EChat (r : ChatRequest)                      (* openai.ChatCompletion.create *)
| EGeocode (q : str)                           (* requests.get on the geocoder *)
| EWriteToSheet (row : Row)                    (* write_to_sheet is entered *)
| ESheetAppend (row : Row)                     (* values().append(...).execute() *)
| ESaveToGcs (eid : str) (data : EventRecord)  (* save_to_gcs is entered *)
| EGcsUpload (key : str) (data : EventRecord)  (* blob.upload_from_string *)
| EGcsMakePublic (key : str)                   (* blob.make_public *)
| EUpdateStatus (status : str).                (* api.update_status *)

(** The collaborators.  Each answer may depend on the moment of the call
    (the [nat]); [Exc] is an exception raised by the call. *)
Record World : Type := {
  chat_create : nat -> ChatRequest -> res str;   (* resp.choices[0].message["content"] *)
  opencage_get : nat -> str -> GeoReply;
  sheets_service : nat -> res unit;              (* credentials and build *)
  sheets_append : nat -> Row -> res unit;
  gcs_client : nat -> res unit;                  (* Client, bucket, blob *)
  gcs_upload : nat -> str -> EventRecord -> res unit;
  gcs_make_public : nat -> str -> res unit;
  tweepy_update_status : nat -> str -> res unit;
  uuid4 : nat -> str;
  utcnow : nat -> DateTime
}.

Record State : Type := {
  trace : list Event;
  tick : nat
}.

(* ===================================================================== *)
(** ** State and exceptions *)
(* ===================================================================== *)

Definition M (A : Type) : Type := State -> res A * State.

Definition ret {A} (a : A) : M A := fun s => (Ok a, s).

Definition bind {A B} (m : M A) (f : A -> M B) : M B :=
  fun s =>
    match m s with
    | (Ok a, s') => f a s'
    | (Exc e, s') => (Exc e, s')
    end.

Definition raise {A} (e : exn) : M A := fun s => (Exc e, s).

Definition lift {A} (r : res A) : M A := fun s => (r, s).

(** [try: m  except Exception as exc: h] *)
Definition try_except {A} (m : M A) (h : exn -> M A) : M A :=
  fun s =>
    match m s with
    | (Ok a, s') => (Ok a, s')
    | (Exc e, s') => h e s'
    end.

Definition emit (e : Event) : M unit :=
  fun s => (Ok tt, {| trace := trace s ++ [e]; tick := tick s |}).

(** Consult a collaborator at the current moment. *)
Definition ask {A} (f : nat -> A) : M A :=
  fun s => (Ok (f (tick s)), {| trace := trace s; tick := S (tick s) |}).

Notation "x <- c ;; k" := (bind c (fun x => k))
  (at level 61, c at next level, right associativity).
Notation "c ;;; k" := (bind c (fun _ => k))
  (at level 61, right associativity).

Definition initial : State := {| trace := []; tick := 0 |}.

(* ===================================================================== *)
(** ** The pipeline *)
(* ===================================================================== *)

Definition classify_system : str :=
  py "You are a classifier that determines if a given news item or "
  ++ py "social media post describes a humanitarian crisis. A "
  ++ py "humanitarian crisis involves death, displacement, famine or "
  ++ py "other severe suffering. Output strictly either 'CRISIS' or "
  ++ py "'NOT CRISIS'. Do not include any additional commentary.".

Definition impact_system : str :=
  py "You are an analyst that extracts the estimated number of people "
  ++ py "affected by a crisis and assigns a severity score. Consider the "
  ++ py "description and output an integer for 'People Affected' and an "
  ++ py "integer between 0 and 100 for 'Severity Score'. Severity 0 means "
  ++ py "negligible impact and 100 means catastrophic impact.".

Definition summary_system : str :=
  py "You are a writer tasked with producing a brief summary of a "
  ++ py "humanitarian crisis. Your summary should be one to two "
  ++ py "sentences, written in plain language. Be sure to mention the "
  ++ py "location, type of crisis and its human impact. Keep the tone "
  ++ py "clear and empathetic.".

(** The hyphen of "well-established" is U+2011 in the source. *)
Definition donations_system : str :=
  py "You are a recommender for charitable organizations. Given the type "
  ++ py "of humanitarian crisis (e.g. war, famine, flood), suggest two or "
  ++ py "three well" ++ [8209%N] ++ py "established and trustworthy organizations that accept "
  ++ py "donations for relief efforts. Provide their names and website URLs.".

(** The siren sign, U+1F6A8. *)
Definition siren : codepoint := 128680%N.

Set Warnings "-inexact-float".

Section Pipeline.

Variable cfg : Config.
Variable w : World.

(** [openai.ChatCompletion.create(...)] followed by
    [resp.choices[0].message["content"]]. *)
Definition chat (r : ChatRequest) : M str :=
  emit (EChat r) ;;;
  content <- ask (fun t => chat_create w t r) ;;
  lift content.

Definition classify_crisis (text : str) : M str :=
  if negb (is_set (OPENAI_API_KEY cfg)) then ret (py "NOT CRISIS")
  else
    try_except
      (content <- chat {| model := py "gpt-3.5-turbo"; system := classify_system;
                          user := text; max_tokens := 5; temperature := 0 |} ;;
       let classification := upper (strip content) in
       let result :=
         if str_in (py "CRISIS") classification then py "CRISIS" else py "NOT CRISIS" in
       ret result)
      (fun exc => ret (py "NOT CRISIS")).

Definition estimate_impact (text : str) : M (Z * Z) :=
  if negb (is_set (OPENAI_API_KEY cfg)) then ret (0%Z, 0%Z)
  else
    try_except
      (content <- chat {| model := py "gpt-3.5-turbo"; system := impact_system;
                          user := py "Description: " ++ text;
                          max_tokens := 50; temperature := 0 |} ;;
       let content := strip content in
       ps <- lift (for_each impact_line (split nl content) (0%Z, 0%Z)) ;;
       ret ps)
      (fun exc => ret (0%Z, 0%Z)).

Definition generate_summary (text : str) : M str :=
  if negb (is_set (OPENAI_API_KEY cfg)) then ret []
  else
    try_except
      (content <- chat {| model := py "gpt-4"; system := summary_system;
                          user := text; max_tokens := 100; temperature := 0.7 |} ;;
       let summary := strip content in
       ret summary)
      (fun exc => ret []).

Definition suggest_donations (event_type : str) : M (list str) :=
  if negb (is_set (OPENAI_API_KEY cfg))
  then ret [py "https://www.directrelief.org/"; py "https://www.unhcr.org/"]
  else
    try_except
      (content <- chat {| model := py "gpt-3.5-turbo"; system := donations_system;
                          user := py "Event type: " ++ event_type;
                          max_tokens := 80; temperature := 0 |} ;;
       let content := strip content in
       let links :=
         map strip
           (filter (fun item => truthy (strip item))
              (split (chr ",") (replace nl (chr ",") content))) in
       ret (firstn 3 links))
      (fun exc => ret [py "https://www.directrelief.org/"; py "https://www.unhcr.org/"]).

(** [d.get(k, 0.0)] on the geometry object. *)
Definition get_float (v : option float) : float :=
  match v with
  | Some f => f
  | None => 0%float
  end.

Definition geocode (location : str) : M (float * float) :=
  if negb (is_set (OPENCAGE_API_KEY cfg)) || negb (truthy location)
  then ret (0%float, 0%float)
  else
    found <-
      try_except
        (emit (EGeocode location) ;;;
         reply <- ask (fun t => opencage_get w t location) ;;
         match reply with
         | GeoRaises => raise CollaboratorError
         | GeoData results =>
             if match results with [] => false | _ :: _ => true end then
               first <- lift (item0 results) ;;
               geometry <- lift (match first with
                                 | Some g => Ok g
                                 | None => Exc KeyError
                                 end) ;;
               ret (Some (get_float (g_lat geometry), get_float (g_lng geometry)))
             else ret None
         end)
        (fun exc => ret None) ;;
    match found with
    | Some latlng => ret latlng
    | None => ret (0%float, 0%float)
    end.

Definition write_to_sheet (row : Row) : M unit :=
  emit (EWriteToSheet row) ;;;
  if negb (google_api_libs cfg) then ret tt
  else if negb (is_set (GOOGLE_SERVICE_ACCOUNT_JSON cfg))
          || negb (is_set (GOOGLE_SHEET_ID cfg)) then ret tt
  else
    try_except
      (service <- ask (sheets_service w) ;;
       lift service ;;;
       emit (ESheetAppend row) ;;;
       done <- ask (fun t => sheets_append w t row) ;;
       lift done)
      (fun exc => ret tt).

Definition save_to_gcs (event_id : str) (data : EventRecord) : M unit :=
  emit (ESaveToGcs event_id data) ;;;
  if negb (storage_lib cfg) then ret tt
  else if negb (is_set (GCS_BUCKET_NAME cfg)) then ret tt
  else
    now <- ask (utcnow w) ;;
    let key := py "events/" ++ fmt_Y now ++ py "/" ++ fmt_m now ++ py "/"
               ++ fmt_d now ++ py "/" ++ event_id ++ py ".json" in
    try_except
      (client <- ask (gcs_client w) ;;
       lift client ;;;
       emit (EGcsUpload key data) ;;;
       up <- ask (fun t => gcs_upload w t key data) ;;
       lift up ;;;
       emit (EGcsMakePublic key) ;;;
       pub <- ask (fun t => gcs_make_public w t key) ;;
       lift pub)
      (fun exc => ret tt).

Definition twitter_configured : bool :=
  is_set (TWITTER_CONSUMER_KEY cfg) && is_set (TWITTER_CONSUMER_SECRET cfg)
  && is_set (TWITTER_ACCESS_TOKEN cfg) && is_set (TWITTER_ACCESS_TOKEN_SECRET cfg).

(** The f-string of [tweet_crisis] (lines 764-769); [donation_links[0]] may
    raise [IndexError]. *)
Definition tweet_text (event : EventRecord) : res str :=
  link0 <-! item0 (donation_links event) ;;
  Ok ([siren] ++ py " Crisis in " ++ location event ++ py ": "
      ++ str_of_Z (people_affected event) ++ py " affected by "
      ++ event_type event ++ [nl]
      ++ summary event ++ [nl]
      ++ py "Help: " ++ link0).

Definition tweet_crisis (event : EventRecord) : M unit :=
  if negb twitter_configured then ret tt
  else
    try_except
      (lift (if tweepy_lib cfg then Ok tt else Exc ImportError) ;;;
       text <- lift (tweet_text event) ;;
       emit (EUpdateStatus (firstn 280 text)) ;;;
       posted <- ask (fun t => tweepy_update_status w t (firstn 280 text)) ;;
       lift posted)
      (fun exc => ret tt).

(** [post_crisis_tweet] of tweet_bot.py: the same text, nothing caught. *)
Definition post_crisis_tweet (event : EventRecord) : M unit :=
  if negb (tweepy_lib cfg) then raise RuntimeError
  else if negb twitter_configured then raise RuntimeError
  else
    link0 <- lift (item0 (donation_links event)) ;;
    let text := [siren] ++ py " Crisis in " ++ location event ++ py ": "
                ++ str_of_Z (people_affected event) ++ py " affected by "
                ++ event_type event ++ [nl]
                ++ summary event ++ [nl]
                ++ py "Help: " ++ link0 in
    emit (EUpdateStatus (firstn 280 text)) ;;;
    posted <- ask (fun t => tweepy_update_status w t (firstn 280 text)) ;;
    lift posted.

Definition process_event (article : Article) : M unit :=
  let title := a_title article in
  let description := a_description article in
  let full_text := fmt title ++ [nl; nl] ++ fmt description in
  classification <- classify_crisis full_text ;;
  if negb (str_eqb classification (py "CRISIS")) then ret tt
  else
    impact <- estimate_impact full_text ;;
    let '(people_affected, severity_score) := impact in
    summary <- generate_summary full_text ;;
    let location := or_default (a_location article) (py "Unknown") in
    latlng <- geocode location ;;
    let '(lat, lng) := latlng in
    let event_type := infer_event_type full_text in
    donation_links <- suggest_donations event_type ;;
    event_id <- ask (uuid4 w) ;;
    now <- ask (utcnow w) ;;
    let timestamp := isoformat now in
    let row := [CStr timestamp; CStr event_id; CStr location; CFloat lat; CFloat lng;
                CStr event_type; CStr summary; CInt people_affected;
                CInt severity_score; CJson donation_links] in
    write_to_sheet row ;;;
    let event_record :=
      {| timestamp := timestamp; event_id := event_id; location := location;
         lat := lat; lng := lng; event_type := event_type;
         title := title; description := description; summary := summary;
         people_affected := people_affected; severity_score := severity_score;
         donation_links := donation_links; source_url := a_url article |} in
    save_to_gcs event_id event_record ;;;
    try_except (tweet_crisis event_record) (fun exc => ret tt) ;;;
    ret tt.

(** The loop of [main] (lines 822-831) over the collected items. *)
Fixpoint process_all (all_articles : list Article) (processed_count : nat) : M nat :=
  match all_articles with
  | [] => ret processed_count
  | article :: rest =>
      processed_count' <-
        try_except (process_event article ;;; ret (processed_count + 1))
                   (fun exc => ret processed_count) ;;
      process_all rest processed_count'
  end.

(** [main] from the point where the items of all adapters are collected
    (line 815); the count is what line 833 logs. *)
Definition main (all_articles : list Article) : M (str * nat) :=
  match all_articles with
  | [] => ret (py "OK - No articles to process", 0)
  | _ :: _ =>
      processed_count <- process_all all_articles 0 ;;
      ret (py "OK", processed_count)
  end.

End Pipeline.

(** The combined text of an item (line 641). *)
Definition full_text (article : Article) : str :=
  fmt (a_title article) ++ [nl; nl] ++ fmt (a_description article).

(** The first line of a text. *)
Definition first_line (s : str) : str := hd [] (split nl s).

(** Events by kind. *)
Definition is_enrichment (e : Event) : bool :=
  match e with EChat _ | EGeocode _ => true | _ => false end.

Definition is_sink (e : Event) : bool :=
  match e with
  | EWriteToSheet _ | ESheetAppend _ | ESaveToGcs _ _ | EGcsUpload _ _
  | EGcsMakePublic _ | EUpdateStatus _ => true
  | _ => false
  end.

(** The events a computation adds to the trace. *)
Definition added {A} (m : M A) (s : State) : list Event :=
  skipn (List.length (trace s)) (trace (snd (m s))).

(** The state after one call that is recorded. *)
Definition after (s : State) (e : Event) : State :=
  {| trace := trace s ++ [e]; tick := S (tick s) |}.

(** The requests of the four completion calls. *)
Definition classify_request (text : str) : ChatRequest :=
  {| model := py "gpt-3.5-turbo"; system := classify_system;
     user := text; max_tokens := 5; temperature := 0 |}.

Definition impact_request (text : str) : ChatRequest :=
  {| model := py "gpt-3.5-turbo"; system := impact_system;
     user := py "Description: " ++ text; max_tokens := 50; temperature := 0 |}.

Definition summary_request (text : str) : ChatRequest :=
  {| model := py "gpt-4"; system := summary_system;
     user := text; max_tokens := 100; temperature := 0.7 |}.

Definition donations_request (event_type : str) : ChatRequest :=
  {| model := py "gpt-3.5-turbo"; system := donations_system;
     user := py "Event type: " ++ event_type; max_tokens := 80; temperature := 0 |}.

(** A text without white space. *)
Definition solid (s : str) : bool := forallb (fun c => negb (isspace c)) s.


(** The records handed to [save_to_gcs] in a list of events. *)
Fixpoint dispatched (evs : list Event) : list EventRecord :=
  match evs with
  | [] => []
  | ESaveToGcs _ data :: r => data :: dispatched r
  | _ :: r => dispatched r
  end.

(** The rows handed to [write_to_sheet] in a list of events. *)
Fixpoint rows (evs : list Event) : list Row :=
  match evs with
  | [] => []
  | EWriteToSheet row :: r => row :: rows r
  | _ :: r => rows r
  end.

(** The texts handed to the posting API in a list of events. *)
Fixpoint posts (evs : list Event) : list str :=
  match evs with
  | [] => []
  | EUpdateStatus status :: r => status :: posts r
  | _ :: r => posts r
  end.

(** The spreadsheet row that goes with a record (lines 676-687). *)
Definition row_of (r : EventRecord) : Row :=
  [CStr (timestamp r); CStr (event_id r); CStr (location r); CFloat (lat r);
   CFloat (lng r); CStr (event_type r); CStr (summary r); CInt (people_affected r);
   CInt (severity_score r); CJson (donation_links r)].

(** A geocoder that raises or finds nothing, whenever it is asked. *)
Definition geocoder_fails (w : World) : Prop :=
  forall t q, opencage_get w t q = GeoRaises \/ opencage_get w t q = GeoData [].

(* ===================================================================== *)
(** ** Concrete configurations and worlds *)
(* ===================================================================== *)

Definition cfg_none : Config :=
  {| OPENAI_API_KEY := None; OPENCAGE_API_KEY := None;
     GOOGLE_SERVICE_ACCOUNT_JSON := None; GOOGLE_SHEET_ID := None;
     GCS_BUCKET_NAME := None;
     TWITTER_CONSUMER_KEY := None; TWITTER_CONSUMER_SECRET := None;
     TWITTER_ACCESS_TOKEN := None; TWITTER_ACCESS_TOKEN_SECRET := None;
     google_api_libs := false; storage_lib := false; tweepy_lib := false |}.

Definition cfg_full : Config :=
  {| OPENAI_API_KEY := Some (py "sk-test"); OPENCAGE_API_KEY := Some (py "oc-test");
     GOOGLE_SERVICE_ACCOUNT_JSON := Some (py "sa.json");
     GOOGLE_SHEET_ID := Some (py "sheet");
     GCS_BUCKET_NAME := Some (py "bucket");
     TWITTER_CONSUMER_KEY := Some (py "ck"); TWITTER_CONSUMER_SECRET := Some (py "cs");
     TWITTER_ACCESS_TOKEN := Some (py "at");
     TWITTER_ACCESS_TOKEN_SECRET := Some (py "ats");
     google_api_libs := true; storage_lib := true; tweepy_lib := true |}.

(** A world whose completion service answers every request with [reply]
    (or raises), whose geocoder answers [geo], and whose sinks succeed. *)
Definition world_of (reply : ChatRequest -> res str) (geo : GeoReply) : World :=
  {| chat_create := fun _ r => reply r;
     opencage_get := fun _ _ => geo;
     sheets_service := fun _ => Ok tt;
     sheets_append := fun _ _ => Ok tt;
     gcs_client := fun _ => Ok tt;
     gcs_upload := fun _ _ _ => Ok tt;
     gcs_make_public := fun _ _ => Ok tt;
     tweepy_update_status := fun _ _ => Ok tt;
     uuid4 := fun _ => py "123e4567-e89b-42d3-a456-426614174000";
     utcnow := fun _ => {| isoformat := py "2024-05-01T12:00:00+00:00";
                           fmt_Y := py "2024"; fmt_m := py "05"; fmt_d := py "01" |} |}.

(** A completion service that follows its instructions on a flood item. *)
Definition flood_reply (r : ChatRequest) : res str :=
  if str_eqb (system r) classify_system then Ok (py "CRISIS")
  else if str_eqb (system r) impact_system
  then Ok (py "People Affected: 5,000" ++ [nl] ++ py "Severity Score: 60")
  else if str_eqb (system r) summary_system
  then Ok (py "Severe flooding in Jakarta has displaced thousands.")
  else Ok (py "Red Cross, https://redcross.org" ++ [nl] ++ py "UNHCR, https://unhcr.org").

(** The same service, with a summary of 300 characters on one line. *)
Definition long_summary_reply (r : ChatRequest) : res str :=
  if str_eqb (system r) summary_system then Ok (repeat (chr "a") 300)
  else flood_reply r.


Definition flood_article : Article :=
  {| a_title := Some (py "Flood devastates Jakarta");
     a_description := Some (py "Thousands displaced after monsoon floods.");
     a_url := Some (py "https://news.example/jakarta");
     a_location := extract_location
                     (py "Flood devastates Jakarta" ++ py " "
                      ++ py "Thousands displaced after monsoon floods.") |}.

(** The item of the end-to-end scenario of the specification, with the
    location given by the source. *)
Definition jakarta_article : Article :=
  {| a_title := Some (py "Flood devastates Jakarta");
     a_description := Some (py "Thousands displaced after monsoon floods.");
     a_url := None;
     a_location := Some (py "Jakarta") |}.

Definition jakarta_geo : GeoReply :=
  GeoData [Some {| g_lat := Some (-6.2)%float; g_lng := Some 106.8%float |}].

Definition flood_event (summary : str) (links : list str) : EventRecord :=
  {| timestamp := py "2024-05-01T12:00:00+00:00";
     event_id := py "123e4567-e89b-42d3-a456-426614174000";
     location := py "Jakarta"; lat := 0%float; lng := 0%float;
     event_type := py "Flood";
     title := Some (py "Flood devastates Jakarta");
     description := Some (py "Thousands displaced after monsoon floods.");
     summary := summary; people_affected := 5000%Z; severity_score := 60%Z;
     donation_links := links; source_url := None |}.

(* ===================================================================== *)
(** ** The source adapters and the entry point *)
(* ===================================================================== *)

(** A string member of a JSON object: the key is absent, or its value is
    null, or it is a string. *)
Inductive Field : Type :=
| Absent
| Null
| Text (s : str).

(** [d.get(k)] *)
Definition get (f : Field) : option str :=
  match f with
  | Text s => Some s
  | _ => None
  end.

(** [d.get(k, default)] *)
Definition get_or (f : Field) (default : str) : option str :=
  match f with
  | Absent => Some default
  | Null => None
  | Text s => Some s
  end.

(** The outcome of an expression on values that may be [None]: its value,
    or a [TypeError]. *)
Inductive typed (A : Type) : Type :=
| Value (a : A)
| TypeError.
Arguments Value {A} a.
Arguments TypeError {A}.

(** [a + b] where [a] may be [None]. *)
Definition add_str (a : option str) (b : str) : typed str :=
  match a with
  | Some s => Value (s ++ b)
  | None => TypeError
  end.

(** [len(a)] where [a] may be [None]. *)
Definition len (a : option str) : typed nat :=
  match a with
  | Some s => Value (List.length s)
  | None => TypeError
  end.

(** [sep.join(l)] *)
Fixpoint join (sep : str) (l : list str) : str :=
  match l with
  | [] => []
  | x :: r =>
      match r with
      | [] => x
      | _ :: _ => x ++ sep ++ join sep r
      end
  end.

(** The dictionary a source adapter builds for one item.  [f_source] is
    [None] where the adapter sets no "source" key. *)
Record Fetched : Type := {
  f_title : option str;
  f_description : str;
  f_url : option str;
  f_published_at : option str;
  f_location : option str;
  f_source : option str
}.

(** The keys [process_event] reads. *)
Definition article_of (f : Fetched) : Article :=
  {| a_title := f_title f; a_description := Some (f_description f);
     a_url := f_url f; a_location := f_location f |}.

Record NewsItem : Type := {
  n_title : Field;
  n_description : Field;
  n_url : Field;
  n_publishedAt : Field
}.

Inductive NewsReply : Type :=
| NewsRaises                            (* get, raise_for_status or json raised *)
| NewsArticles (items : list NewsItem). (* data.get("articles", []) *)

(** An entry of a parsed feed.  [None] is a missing attribute; the two
    dates are the [isoformat] of [published_parsed] and [updated_parsed]
    where these are present and not empty. *)
Record Entry : Type := {
  e_title : option str;
  e_summary : option str;
  e_description : option str;
  e_link : option str;
  e_published : option str;
  e_updated : option str
}.

Record Tweet : Type := {
  t_text : Field;
  t_id : Field;
  t_created_at : Field
}.

Inductive TwitterReply : Type :=
| TwitterRaises
| TwitterData (data : option (list Tweet)).  (* None: no "data" key *)

(** A submission; [s_created] is the [isoformat] of its [created_utc]. *)
Record Submission : Type := {
  s_stickied : bool;
  s_title : str;
  s_selftext : str;
  s_permalink : str;
  s_created : str
}.

(** The environment variables of the adapters and their optional
    libraries. *)
Record Sources : Type := {
  NEWS_API_KEY : option str;
  RSS_FEED_URLS_env : option str;
  REDDIT_CLIENT_ID : option str;
  REDDIT_CLIENT_SECRET : option str;
  TWITTER_BEARER_TOKEN : option str;
  feedparser_lib : bool;   (* feedparser is not None *)
  praw_lib : bool          (* praw is not None *)
}.

(** The services the adapters read.  A listing of submissions yields some
    of them and may then raise. *)
Record Feeds : Type := {
  newsapi_get : nat -> nat -> NewsReply;                (* pageSize *)
  feedparser_parse : nat -> str -> res (list Entry);    (* feed URL *)
  twitter_search : nat -> str -> nat -> TwitterReply;   (* query, max_results *)
  praw_Reddit : nat -> res unit;
  subreddit_hot : nat -> str -> nat -> list Submission * res unit  (* name, limit *)
}.

(** Line 93: the list of feed URLs. *)
Definition RSS_FEED_URLS (src : Sources) : list str :=
  match RSS_FEED_URLS_env src with
  | Some (c :: r) => split (chr ",") (c :: r)
  | _ => []
  end.

(** [for x in items: acc.append(build(x))], where [build] may raise: what
    was appended before the exception stays in the list. *)
Fixpoint append_each {A B} (build : A -> typed B) (items : list A) (acc : list B)
  : list B * typed unit :=
  match items with
  | [] => (acc, Value tt)
  | x :: r =>
      match build x with
      | Value b => append_each build r (acc ++ [b])
      | TypeError => (acc, TypeError)
      end
  end.

(** Lines 135-141: the dictionary of one item of the news API. *)
Definition news_article (item : NewsItem) : typed Fetched :=
  let title := get (n_title item) in
  let description := or_default (get (n_description item)) [] in
  let url := get (n_url item) in
  let published_at := get (n_publishedAt item) in
  match add_str (get_or (n_title item) []) (py " ") with
  | TypeError => TypeError
  | Value text =>
      Value {| f_title := title; f_description := description; f_url := url;
               f_published_at := published_at;
               f_location :=
                 extract_location (text ++ or_default (get (n_description item)) []);
               f_source := None |}
  end.

(** Lines 183-204: the dictionary of one entry of a feed. *)
Definition rss_article (entry : Entry) : Fetched :=
  let published_at :=
    match e_published entry with
    | Some iso => iso
    | None => match e_updated entry with
              | Some iso => iso
              | None => []
              end
    end in
  let description :=
    match e_summary entry with
    | Some summary => summary
    | None => match e_description entry with
              | Some d => d
              | None => []
              end
    end in
  let title := match e_title entry with Some t => t | None => [] end in
  {| f_title := Some title; f_description := description;
     f_url := Some (match e_link entry with Some l => l | None => [] end);
     f_published_at := Some published_at;
     f_location := extract_location (title ++ py " " ++ description);
     f_source := Some (py "RSS") |}.

Definition crisis_keywords : list str :=
  [py "humanitarian crisis"; py "emergency relief"; py "disaster response";
   py "refugee crisis"; py "natural disaster"; py "earthquake"; py "flood";
   py "famine"; py "drought"; py "conflict"; py "war"; py "displacement"].

(** Line 251: the search query. *)
Definition twitter_query : str :=
  join (py " OR ") (map (fun keyword => [34%N] ++ keyword ++ [34%N])
                        (firstn 5 crisis_keywords)).

(** Lines 260-267: the dictionary of one tweet. *)
Definition twitter_post (tweet : Tweet) : typed Fetched :=
  match len (get_or (t_text tweet) []) with
  | TypeError => TypeError
  | Value n =>
      let text := match get_or (t_text tweet) [] with Some s => s | None => [] end in
      let title := if 100 <? n then firstn 100 text ++ py "..." else text in
      Value {| f_title := Some title; f_description := text;
               f_url := Some (py "https://twitter.com/i/web/status/"
                              ++ fmt (get (t_id tweet)));
               f_published_at := get_or (t_created_at tweet) [];
               f_location := extract_location text;
               f_source := Some (py "Twitter") |}
  end.

Definition crisis_subreddits : list str :=
  [py "worldnews"; py "news"; py "globalhealth"; py "humanrights";
   py "CrisisWatch"; py "ukraine"; py "syriancivilwar"; py "afghanistan";
   py "refugees"; py "DisasterResponse"; py "HumanitarianAid"].

(** Lines 320-333: the dictionary of one submission. *)
Definition reddit_post (subreddit_name : str) (submission : Submission) : Fetched :=
  let published_at := s_created submission in
  let description :=
    if truthy (s_selftext submission) then s_selftext submission
    else s_title submission in
  {| f_title := Some (s_title submission); f_description := description;
     f_url := Some (py "https://reddit.com" ++ s_permalink submission);
     f_published_at := Some published_at;
     f_location := extract_location (s_title submission ++ py " " ++ description);
     f_source := Some (py "Reddit r/" ++ subreddit_name) |}.

Section Adapters.

Variable src : Sources.
Variable feeds : Feeds.

Definition fetch_news (limit : nat) : M (list Fetched) :=
  if negb (is_set (NEWS_API_KEY src)) then ret []
  else
    reply <- ask (fun t => newsapi_get feeds t limit) ;;
    match reply with
    | NewsRaises => ret []
    | NewsArticles items => ret (fst (append_each news_article items []))
    end.

(** The loop over the feed URLs (lines 172-209). *)
Fixpoint fetch_rss_feeds (limit : nat) (urls : list str) (articles : list Fetched)
  : M (list Fetched) :=
  match urls with
  | [] => ret articles
  | feed_url :: rest =>
      let feed_url := strip feed_url in
      if negb (truthy feed_url) then fetch_rss_feeds limit rest articles
      else
        feed <- ask (fun t => feedparser_parse feeds t feed_url) ;;
        match feed with
        | Ok entries =>
            fetch_rss_feeds limit rest
              (articles ++ map rss_article (firstn limit entries))
        | Exc exc => fetch_rss_feeds limit rest articles
        end
  end.

Definition fetch_rss_articles (limit : nat) : M (list Fetched) :=
  if negb (feedparser_lib src) then ret []
  else if match RSS_FEED_URLS src with [] => true | _ :: _ => false end
          || match RSS_FEED_URLS src with [[]] => true | _ => false end
  then ret []
  else fetch_rss_feeds limit (RSS_FEED_URLS src) [].

Definition fetch_twitter_posts (limit : nat) : M (list Fetched) :=
  if negb (is_set (TWITTER_BEARER_TOKEN src)) then ret []
  else
    reply <- ask (fun t => twitter_search feeds t twitter_query (Nat.min limit 100)) ;;
    match reply with
    | TwitterRaises => ret []
    | TwitterData None => ret []
    | TwitterData (Some data) => ret (fst (append_each twitter_post data []))
    end.

(** The loop over the subreddits (lines 310-337). *)
Fixpoint fetch_subreddits (posts_per_subreddit : nat) (names : list str)
    (posts : list Fetched) : M (list Fetched) :=
  match names with
  | [] => ret posts
  | subreddit_name :: rest =>
      listing <- ask (fun t => subreddit_hot feeds t subreddit_name posts_per_subreddit) ;;
      let posts' :=
        posts ++ map (reddit_post subreddit_name)
                     (filter (fun submission => negb (s_stickied submission))
                             (fst listing)) in
      match snd listing with
      | Ok _ => fetch_subreddits posts_per_subreddit rest posts'
      | Exc exc => fetch_subreddits posts_per_subreddit rest posts'
      end
  end.

Definition fetch_reddit_posts (limit : nat) : M (list Fetched) :=
  if negb (praw_lib src) then ret []
  else if negb (is_set (REDDIT_CLIENT_ID src))
          || negb (is_set (REDDIT_CLIENT_SECRET src)) then ret []
  else
    reddit <- ask (praw_Reddit feeds) ;;
    match reddit with
    | Exc exc => ret []
    | Ok _ =>
        let posts_per_subreddit :=
          Nat.max 1 (limit / List.length crisis_subreddits) in
        fetch_subreddits posts_per_subreddit crisis_subreddits []
    end.

(** [main] (lines 776-836), with the count that line 833 logs. *)
Definition main_request (cfg : Config) (w : World) : M (str * nat) :=
  news_articles <- (if is_set (NEWS_API_KEY src) then fetch_news 15 else ret []) ;;
  rss_articles <- fetch_rss_articles 10 ;;
  twitter_posts <- fetch_twitter_posts 15 ;;
  reddit_posts <- fetch_reddit_posts 15 ;;
  let all_articles := news_articles ++ rss_articles ++ twitter_posts ++ reddit_posts in
  main cfg w (map article_of all_articles).

End Adapters.

(** [upload_event] of gcs_uploader.py: the same upload as [save_to_gcs],
    nothing caught. *)
Definition upload_event (cfg : Config) (w : World) (event_id : str) (data : EventRecord)
  : M unit :=
  if negb (storage_lib cfg) then raise RuntimeError
  else if negb (is_set (GCS_BUCKET_NAME cfg)) then raise RuntimeError
  else
    now <- ask (utcnow w) ;;
    let key := py "events/" ++ fmt_Y now ++ py "/" ++ fmt_m now ++ py "/"
               ++ fmt_d now ++ py "/" ++ event_id ++ py ".json" in
    client <- ask (gcs_client w) ;;
    lift client ;;;
    emit (EGcsUpload key data) ;;;
    up <- ask (fun t => gcs_upload w t key data) ;;
    lift up ;;;
    emit (EGcsMakePublic key) ;;;
    pub <- ask (fun t => gcs_make_public w t key) ;;
    lift pub.

(** The object key of lines 611-612. *)
Definition gcs_key (now : DateTime) (event_id : str) : str :=
  py "events/" ++ fmt_Y now ++ py "/" ++ fmt_m now ++ py "/"
  ++ fmt_d now ++ py "/" ++ event_id ++ py ".json".

(** Sources with nothing configured, and feeds that answer nothing. *)
Definition src_none : Sources :=
  {| NEWS_API_KEY := None; RSS_FEED_URLS_env := None;
     REDDIT_CLIENT_ID := None; REDDIT_CLIENT_SECRET := None;
     TWITTER_BEARER_TOKEN := None; feedparser_lib := false; praw_lib := false |}.

Definition feeds_none : Feeds :=
  {| newsapi_get := fun _ _ => NewsRaises;
     feedparser_parse := fun _ _ => Exc CollaboratorError;
     twitter_search := fun _ _ _ => TwitterRaises;
     praw_Reddit := fun _ => Exc CollaboratorError;
     subreddit_hot := fun _ _ _ => ([], Ok tt) |}.

(** A world whose sinks can be reached but whose every write, publication
    and post raises. *)
Definition world_failing_sinks (reply : ChatRequest -> res str) : World :=
  {| chat_create := fun _ r => reply r;
     opencage_get := fun _ _ => GeoRaises;
     sheets_service := fun _ => Ok tt;
     sheets_append := fun _ _ => Exc CollaboratorError;
     gcs_client := fun _ => Ok tt;
     gcs_upload := fun _ _ _ => Exc CollaboratorError;
     gcs_make_public := fun _ _ => Exc CollaboratorError;
     tweepy_update_status := fun _ _ => Exc CollaboratorError;
     uuid4 := fun _ => py "123e4567-e89b-42d3-a456-426614174000";
     utcnow := fun _ => {| isoformat := py "2024-05-01T12:00:00+00:00";
                           fmt_Y := py "2024"; fmt_m := py "05"; fmt_d := py "01" |} |}.

(** What one item hands to the sinks: nothing, or one row and one record
    that agree, with at most one post, made from that record. *)
Definition one_dispatch (evs : list Event) : Prop :=
  (rows evs = [] /\ dispatched evs = [] /\ posts evs = []) \/
  exists r,
    rows evs = [row_of r] /\ dispatched evs = [r] /\
    (posts evs = [] \/
     exists text, tweet_text r = Ok text /\ posts evs = [firstn 280 text]).

(** Sources with everything configured: two feed URLs around a blank one. *)
Definition src_full : Sources :=
  {| NEWS_API_KEY := Some (py "news-key");
     RSS_FEED_URLS_env := Some (py "https://a.example/rss, ,https://b.example/rss");
     REDDIT_CLIENT_ID := Some (py "id"); REDDIT_CLIENT_SECRET := Some (py "secret");
     TWITTER_BEARER_TOKEN := Some (py "bearer");
     feedparser_lib := true; praw_lib := true |}.

Definition news_item (title : Field) : NewsItem :=
  {| n_title := title; n_description := Null;
     n_url := Text (py "https://news.example/1"); n_publishedAt := Absent |}.

Definition feed_entry (title : str) : Entry :=
  {| e_title := Some title; e_summary := None; e_description := Some (py "text");
     e_link := None; e_published := None; e_updated := Some (py "2024-05-01T00:00:00") |}.

(** Feeds that answer: three news items, the second with a null title; a
    feed of three entries at the first URL and a failure at any other; two
    tweets, of 150 and of 5 characters; and, in every subreddit, a stickied
    submission and a link submission without text. *)
Definition feeds_demo : Feeds :=
  {| newsapi_get := fun _ _ =>
       NewsArticles [news_item (Text (py "Flood in Jakarta")); news_item Null;
                     news_item (Text (py "Quake"))];
     feedparser_parse := fun _ url =>
       if str_eqb url (py "https://a.example/rss")
       then Ok [feed_entry (py "one"); feed_entry (py "two"); feed_entry (py "three")]
       else Exc CollaboratorError;
     twitter_search := fun _ _ _ =>
       TwitterData (Some [{| t_text := Text (repeat (chr "x") 150);
                             t_id := Text (py "1"); t_created_at := Absent |};
                          {| t_text := Text (py "short"); t_id := Absent;
                             t_created_at := Text (py "2024-05-01T00:00:00Z") |}]);
     praw_Reddit := fun _ => Ok tt;
     subreddit_hot := fun _ _ _ =>
       ([{| s_stickied := true; s_title := py "Rules"; s_selftext := py "Be kind.";
            s_permalink := py "/r/x/1"; s_created := py "2024-05-01T00:00:00+00:00" |};
         {| s_stickied := false; s_title := py "Flood warning"; s_selftext := [];
            s_permalink := py "/r/x/2"; s_created := py "2024-05-01T00:00:00+00:00" |}],
        Exc CollaboratorError) |}.

(* ===================================================================== *)
(** ** Tactics *)
(* ===================================================================== *)

(** Character classes: case analysis on the comparisons, then arithmetic. *)
Ltac char_cases :=
  unfold isspace, isdigit, lower_char, upper_char, chr in *;
  repeat match goal with
         | |- context [N.leb ?a ?b] => destruct (N.leb_spec a b)
         | H : context [N.leb ?a ?b] |- _ => destruct (N.leb_spec a b)
         | |- context [N.eqb ?a ?b] => destruct (N.eqb_spec a b)
         | H : context [N.eqb ?a ?b] |- _ => destruct (N.eqb_spec a b)
         end;
  simpl in *; try reflexivity; try discriminate; try lia.

(** Unfold the sequencing and reduce the state projections. *)
Ltac run :=
  cbv beta iota delta [bind emit try_except ask lift ret raise];
  cbn [tick trace fst snd].

(** Close a goal [exists s1 evs, m s = (Ok tt, s1) and trace s1 = ... and P]
    after [run], leaving the last conjunct. *)
Ltac done_with_trace :=
  do 2 eexists; (split; [reflexivity|]); cbn [trace];
  repeat rewrite <- app_assoc; (split; [reflexivity|]).

(* ===================================================================== *)
(** ** Facts about strings *)
(* ===================================================================== *)

Lemma py_int_examples :
  py_int (py "1200") = Ok 1200%Z /\ py_int (py " -5 ") = Ok (-5)%Z /\
  py_int (py "1_000") = Ok 1000%Z /\ py_int (py "") = Exc ValueError /\
  py_int (py "1,200") = Exc ValueError /\ py_int (py "12_") = Exc ValueError.
Proof. vm_compute. repeat split. Qed.

Lemma split_examples :
  split nl (py "a" ++ [nl] ++ py "b" ++ [nl]) = [py "a"; py "b"; []] /\
  split nl [] = [[]] /\
  split1 (chr ":") (py "k: v: w") = [py "k"; py " v: w"] /\
  split1 (chr ":") (py "none") = [py "none"] /\
  strip (py "  a b  " ++ [nl]) = py "a b" /\
  str_of_Z 5000 = py "5000".
Proof. vm_compute. repeat split. Qed.


Lemma startswith_nil (s : str) : startswith s [] = true.
Proof. destruct s; reflexivity. Qed.











Lemma isdigit_not_space (c : codepoint) : isdigit c = true -> isspace c = false.
Proof. intros H. char_cases. Qed.

Lemma isdigit_value (c : codepoint) : isdigit c = true -> (0 <= Z.of_N c - 48 <= 9)%Z.
Proof. intros H. char_cases. Qed.

Lemma isdigit_not_sign (c : codepoint) :
  isdigit c = true -> (c =? chr "-")%N = false /\ (c =? chr "+")%N = false.
Proof. intros H. split; char_cases. Qed.



Lemma rstrip_cons_nonspace c r : isspace c = false -> rstrip (c :: r) = c :: rstrip r.
Proof. intros H. simpl. rewrite H. destruct (rstrip r); reflexivity. Qed.


Lemma rstrip_app_solid a x : solid a = true -> rstrip (a ++ x) = a ++ rstrip x.
Proof.
  induction a as [|c a IH]; intros H; [reflexivity|].
  simpl in H. apply andb_true_iff in H. destruct H as [H1 H2].
  apply negb_true_iff in H1.
  change ((c :: a) ++ x) with (c :: (a ++ x)).
  rewrite (rstrip_cons_nonspace c _ H1), (IH H2). reflexivity.
Qed.

Lemma rstrip_solid a : solid a = true -> rstrip a = a.
Proof.
  intros H. rewrite <- (app_nil_r a) at 1. rewrite (rstrip_app_solid a [] H).
  simpl. apply app_nil_r.
Qed.

Lemma lstrip_solid a : solid a = true -> lstrip a = a.
Proof.
  destruct a as [|c a]; [reflexivity|]. simpl. intros H.
  apply andb_true_iff in H. destruct H as [H _].
  apply negb_true_iff in H. rewrite H. reflexivity.
Qed.

Lemma strip_solid a : solid a = true -> strip a = a.
Proof. intros H. unfold strip. rewrite (lstrip_solid a H). apply rstrip_solid, H. Qed.










(* ===================================================================== *)
(** ** Running the collaborator calls *)
(* ===================================================================== *)

Lemma chat_run w r s :
  chat w r s = (chat_create w (tick s) r, after s (EChat r)).
Proof. reflexivity. Qed.

Lemma classify_crisis_run cfg w text s :
  classify_crisis cfg w text s =
  if is_set (OPENAI_API_KEY cfg)
  then (Ok (match chat_create w (tick s) (classify_request text) with
            | Ok content => classify_content content
            | Exc _ => py "NOT CRISIS"
            end), after s (EChat (classify_request text)))
  else (Ok (py "NOT CRISIS"), s).
Proof.
  unfold classify_crisis. destruct (is_set (OPENAI_API_KEY cfg)); [|reflexivity].
  cbv beta iota delta [negb try_except bind]. rewrite chat_run.
  fold (classify_request text).
  destruct (chat_create w (tick s) (classify_request text)); reflexivity.
Qed.



(* ===================================================================== *)
(** ** classify_crisis *)
(* ===================================================================== *)



(* ===================================================================== *)
(** ** estimate_impact *)
(* ===================================================================== *)

Lemma forallb_filter_self {A} (f : A -> bool) (l : list A) :
  forallb f (filter f l) = true.
Proof.
  induction l as [|x l IH]; [reflexivity|].
  simpl. destruct (f x) eqn:E; [|exact IH]. simpl. rewrite E. exact IH.
Qed.

Lemma digits_solid (s : str) : forallb isdigit s = true -> solid s = true.
Proof.
  induction s as [|c s IH]; [reflexivity|]. simpl. intros H.
  apply andb_true_iff in H. destruct H as [H1 H2].
  rewrite (isdigit_not_space c H1). simpl. auto.
Qed.

Lemma int_digits_all (s : str) (acc : Z) (b : bool) :
  forallb isdigit s = true ->
  int_digits s acc b =
  if truthy s || b
  then Ok (fold_left (fun a c => (10 * a + (Z.of_N c - 48))%Z) s acc)
  else Exc ValueError.
Proof.
  revert acc b. induction s as [|c s IH]; intros acc b H.
  - simpl. destruct b; reflexivity.
  - simpl in H. apply andb_true_iff in H. destruct H as [H1 H2].
    cbn [int_digits]. rewrite H1, (IH _ true H2), orb_true_r. reflexivity.
Qed.

Lemma py_int_digits (s : str) :
  forallb isdigit s = true ->
  py_int s = match s with
             | [] => Exc ValueError
             | _ :: _ => Ok (fold_left (fun a c => (10 * a + (Z.of_N c - 48))%Z) s 0%Z)
             end.
Proof.
  intros H. unfold py_int. rewrite (strip_solid s (digits_solid s H)).
  destruct s as [|c r]; [reflexivity|].
  assert (Hc : isdigit c = true).
  { simpl in H. apply andb_true_iff in H. tauto. }
  destruct (isdigit_not_sign c Hc) as [Hm Hp]. rewrite Hm, Hp.
  rewrite (int_digits_all (c :: r) 0 false H). reflexivity.
Qed.

(** Lines 432-435 and 437-440: the digits of the value as a number, 0 when
    there is none. *)
Lemma int_of_digits_or_zero (value : str) :
  except_ValueError (py_int (filter isdigit value)) (Ok 0%Z) = Ok (digits_value value).
Proof.
  rewrite (py_int_digits _ (forallb_filter_self isdigit value)).
  unfold digits_value. destruct (filter isdigit value); reflexivity.
Qed.

Lemma digits_value_nonneg (value : str) : (0 <= digits_value value)%Z.
Proof.
  unfold digits_value.
  assert (G : forall l acc, forallb isdigit l = true -> (0 <= acc)%Z ->
              (0 <= fold_left (fun a c => (10 * a + (Z.of_N c - 48))%Z) l acc)%Z).
  { induction l as [|c l IH]; intros acc H Ha; [exact Ha|].
    simpl in H. apply andb_true_iff in H. destruct H as [H1 H2].
    cbn [fold_left]. apply IH; [exact H2|]. pose proof (isdigit_value c H1). lia. }
  apply G; [apply forallb_filter_self | lia].
Qed.

Lemma str_in_char (sep : codepoint) (line : str) :
  str_in [sep] line = true <-> In sep line.
Proof.
  induction line as [|c r IH]; [simpl; split; [discriminate | contradiction]|].
  cbn [str_in startswith]. rewrite startswith_nil, andb_true_r, orb_true_iff, IH.
  rewrite N.eqb_eq. simpl. split; intros [H|H]; auto.
Qed.

Lemma split1_first (sep : codepoint) (key value : str) :
  ~ In sep key -> split1 sep (key ++ sep :: value) = [key; value].
Proof.
  induction key as [|c key IH]; intros H.
  - simpl. rewrite N.eqb_refl. reflexivity.
  - simpl. destruct (N.eqb_spec c sep) as [E|E].
    + exfalso. apply H. left. exact E.
    + rewrite IH; [reflexivity|]. intros Hin. apply H. right. exact Hin.
Qed.

Lemma in_first (sep : codepoint) (line : str) :
  In sep line -> exists key value, line = key ++ sep :: value /\ ~ In sep key.
Proof.
  induction line as [|c r IH]; [contradiction|]. intros H.
  destruct (N.eq_dec c sep) as [E|E].
  - exists [], r. subst c. split; [reflexivity | intros []].
  - destruct H as [H|H]; [contradiction|].
    destruct (IH H) as (key & value & -> & Hk).
    exists (c :: key), value. split; [reflexivity|].
    intros [Hc|Hc]; [contradiction | exact (Hk Hc)].
Qed.

(** The loop body on a line with a colon, after the split. *)
Lemma impact_line_split (people severity : Z) (key value : str) :
  ~ In (chr ":") key ->
  impact_line (people, severity) (key ++ chr ":" :: value) =
  if startswith (strip (lower key)) (py "people")
  then Ok (digits_value value, severity)
  else if startswith (strip (lower key)) (py "severity")
  then Ok (people, digits_value value)
  else Ok (people, severity).
Proof.
  intros Hk. unfold impact_line.
  assert (Hin : str_in (py ":") (key ++ chr ":" :: value) = true).
  { apply (str_in_char (chr ":")). apply in_or_app. right. left. reflexivity. }
  rewrite Hin, (split1_first (chr ":") key value Hk). cbn [unpack2].
  rewrite int_of_digits_or_zero. reflexivity.
Qed.

Lemma impact_line_no_colon (acc : Z * Z) (line : str) :
  str_in (py ":") line = false -> impact_line acc line = Ok acc.
Proof. intros H. unfold impact_line. destruct acc. rewrite H. reflexivity. Qed.

(** The loop body never raises and keeps both numbers non-negative. *)
Lemma impact_line_total (acc : Z * Z) (line : str) :
  exists acc', impact_line acc line = Ok acc' /\
               ((0 <= fst acc)%Z -> (0 <= snd acc)%Z ->
                (0 <= fst acc')%Z /\ (0 <= snd acc')%Z).
Proof.
  destruct acc as [people severity].
  destruct (str_in (py ":") line) eqn:Hc.
  - apply (str_in_char (chr ":")) in Hc.
    destruct (in_first _ _ Hc) as (key & value & -> & Hk).
    rewrite (impact_line_split people severity key value Hk).
    pose proof (digits_value_nonneg value).
    destruct (startswith _ (py "people")); [|destruct (startswith _ (py "severity"))];
      eexists; (split; [reflexivity | simpl; intros; split; assumption]).
  - rewrite (impact_line_no_colon _ line Hc). eexists. split; [reflexivity | auto].
Qed.

Lemma for_each_impact_total (lines : list str) (acc : Z * Z) :
  exists acc', for_each impact_line lines acc = Ok acc' /\
               ((0 <= fst acc)%Z -> (0 <= snd acc)%Z ->
                (0 <= fst acc')%Z /\ (0 <= snd acc')%Z).
Proof.
  revert acc. induction lines as [|line lines IH]; intros acc.
  - exists acc. split; [reflexivity | auto].
  - destruct (impact_line_total acc line) as (acc1 & E1 & P1).
    destruct (IH acc1) as (acc2 & E2 & P2).
    exists acc2. simpl. rewrite E1. split; [exact E2|].
    intros Ha Hb. destruct (P1 Ha Hb). auto.
Qed.

Lemma impact_of_content_total (content : str) :
  exists people severity,
    impact_of_content content = Ok (people, severity) /\
    (0 <= people)%Z /\ (0 <= severity)%Z.
Proof.
  unfold impact_of_content.
  destruct (for_each_impact_total (split nl (strip content)) (0%Z, 0%Z))
    as ([p sv] & E & P).
  exists p, sv. split; [exact E|]. apply P; simpl; lia.
Qed.

Lemma estimate_impact_run cfg w text s :
  estimate_impact cfg w text s =
  if is_set (OPENAI_API_KEY cfg)
  then (Ok (match chat_create w (tick s) (impact_request text) with
            | Ok content => match impact_of_content content with
                            | Ok ps => ps
                            | Exc _ => (0%Z, 0%Z)
                            end
            | Exc _ => (0%Z, 0%Z)
            end), after s (EChat (impact_request text)))
  else (Ok (0%Z, 0%Z), s).
Proof.
  unfold estimate_impact. destruct (is_set (OPENAI_API_KEY cfg)); [|reflexivity].
  cbv beta iota delta [negb try_except bind]. rewrite chat_run.
  fold (impact_request text).
  destruct (chat_create w (tick s) (impact_request text)) as [content|e];
    [|reflexivity].
  unfold lift, ret, impact_of_content.
  destruct (for_each impact_line (split nl (strip content)) (0%Z, 0%Z)); reflexivity.
Qed.






(* ===================================================================== *)
(** ** suggest_donations *)
(* ===================================================================== *)




Lemma suggest_donations_run cfg w event_type s :
  suggest_donations cfg w event_type s =
  if is_set (OPENAI_API_KEY cfg)
  then (Ok (match chat_create w (tick s) (donations_request event_type) with
            | Ok content => donations_of_content content
            | Exc _ => fallback_links
            end), after s (EChat (donations_request event_type)))
  else (Ok fallback_links, s).
Proof.
  unfold suggest_donations. destruct (is_set (OPENAI_API_KEY cfg)); [|reflexivity].
  cbv beta iota delta [negb try_except bind]. rewrite chat_run.
  fold (donations_request event_type).
  destruct (chat_create w (tick s) (donations_request event_type)); reflexivity.
Qed.














(* ===================================================================== *)
(** ** infer_event_type *)
(* ===================================================================== *)





(* ===================================================================== *)
(** ** The enrichment calls and the sinks, one by one *)
(* ===================================================================== *)

Lemma str_eqb_eq (a b : str) : str_eqb a b = true <-> a = b.
Proof.
  revert b. induction a as [|x a IH]; intros [|y b]; simpl;
    try (split; [discriminate | discriminate]); [tauto|].
  rewrite andb_true_iff, N.eqb_eq, IH. split.
  - intros [-> ->]. reflexivity.
  - intros E. injection E. auto.
Qed.

Lemma generate_summary_run cfg w text s :
  generate_summary cfg w text s =
  if is_set (OPENAI_API_KEY cfg)
  then (Ok (match chat_create w (tick s) (summary_request text) with
            | Ok content => strip content
            | Exc _ => []
            end), after s (EChat (summary_request text)))
  else (Ok [], s).
Proof.
  unfold generate_summary. destruct (is_set (OPENAI_API_KEY cfg)); [|reflexivity].
  cbv beta iota delta [negb try_except bind]. rewrite chat_run.
  fold (summary_request text).
  destruct (chat_create w (tick s) (summary_request text)); reflexivity.
Qed.

Lemma geocode_run cfg w location s :
  geocode cfg w location s =
  if is_set (OPENCAGE_API_KEY cfg) && truthy location
  then (Ok (match opencage_get w (tick s) location with
            | GeoData (Some geometry :: _) =>
                (get_float (g_lat geometry), get_float (g_lng geometry))
            | _ => (0%float, 0%float)
            end), after s (EGeocode location))
  else (Ok (0%float, 0%float), s).
Proof.
  unfold geocode.
  destruct (is_set (OPENCAGE_API_KEY cfg)); [|reflexivity].
  destruct (truthy location); [|reflexivity].
  cbv beta iota delta [negb orb andb try_except bind emit ask lift ret raise item0].
  cbn [tick trace].
  destruct (opencage_get w (tick s) location) as [|[|[g|] rest]]; reflexivity.
Qed.

(** Every call of the enrichment stage returns, and adds at most the one
    call it makes to the trace. *)
Lemma classify_crisis_returns cfg w text s :
  exists c s' evs,
    classify_crisis cfg w text s = (Ok c, s') /\ trace s' = trace s ++ evs /\
    forallb is_enrichment evs = true.
Proof.
  rewrite classify_crisis_run. destruct (is_set _).
  - do 3 eexists. split; [reflexivity|]. split; reflexivity.
  - exists (py "NOT CRISIS"), s, []. rewrite app_nil_r. repeat split.
Qed.

Lemma estimate_impact_returns cfg w text s :
  exists people severity s' evs,
    estimate_impact cfg w text s = (Ok (people, severity), s') /\
    trace s' = trace s ++ evs /\ forallb is_enrichment evs = true /\
    (0 <= people)%Z /\ (0 <= severity)%Z.
Proof.
  rewrite estimate_impact_run. destruct (is_set _).
  - destruct (chat_create w (tick s) (impact_request text)) as [content|e].
    + destruct (impact_of_content_total content) as (p & sv & E & Hp & Hs).
      rewrite E. exists p, sv. do 2 eexists.
      split; [reflexivity|]. repeat split; assumption.
    + exists 0%Z, 0%Z. do 2 eexists.
      split; [reflexivity|]. repeat split; lia.
  - exists 0%Z, 0%Z, s, []. rewrite app_nil_r. repeat split; lia.
Qed.

Lemma generate_summary_returns cfg w text s :
  exists summary s' evs,
    generate_summary cfg w text s = (Ok summary, s') /\
    trace s' = trace s ++ evs /\ forallb is_enrichment evs = true.
Proof.
  rewrite generate_summary_run. destruct (is_set _).
  - do 3 eexists. split; [reflexivity|]. split; reflexivity.
  - exists [], s, []. rewrite app_nil_r. repeat split.
Qed.

Lemma geocode_returns cfg w location s :
  exists la ln s' evs,
    geocode cfg w location s = (Ok (la, ln), s') /\
    trace s' = trace s ++ evs /\ forallb is_enrichment evs = true /\
    (geocoder_fails w -> la = 0%float /\ ln = 0%float).
Proof.
  rewrite geocode_run. destruct (_ && _).
  - destruct (opencage_get w (tick s) location) as [|[|[g|] rest]] eqn:E;
      do 4 eexists; (split; [reflexivity|]); (split; [reflexivity|]);
      (split; [reflexivity|]); intros Hf; try (split; reflexivity).
    + destruct (Hf (tick s) location) as [F|F]; rewrite F in E; discriminate.
  - exists 0%float, 0%float, s, []. rewrite app_nil_r. repeat split.
Qed.

Lemma suggest_donations_returns cfg w event_type s :
  exists links s' evs,
    suggest_donations cfg w event_type s = (Ok links, s') /\
    trace s' = trace s ++ evs /\ forallb is_enrichment evs = true /\
    List.length links <= 3.
Proof.
  rewrite suggest_donations_run. destruct (is_set _).
  - do 3 eexists. split; [reflexivity|]. split; [reflexivity|]. split; [reflexivity|].
    destruct (chat_create _ _ _); [|simpl; lia].
    unfold donations_of_content. rewrite length_firstn. apply Nat.le_min_l.
  - exists fallback_links, s, []. rewrite app_nil_r. repeat split. simpl. lia.
Qed.

(** The sinks never raise.  [write_to_sheet] records its row and at most
    one append of that row; [save_to_gcs] records its record and at most an
    upload of that record, then its publication. *)
Lemma write_to_sheet_returns cfg w row s :
  exists s' evs,
    write_to_sheet cfg w row s = (Ok tt, s') /\
    trace s' = trace s ++ EWriteToSheet row :: evs /\
    (evs = [] \/ evs = [ESheetAppend row]).
Proof.
  unfold write_to_sheet.
  destruct (negb (google_api_libs cfg)); [run; done_with_trace; auto|].
  destruct (_ || _); [run; done_with_trace; auto|].
  run. destruct (sheets_service w (tick s)) as [[]|e]; [|done_with_trace; auto].
  destruct (sheets_append w (S (tick s)) row) as [[]|e]; done_with_trace; auto.
Qed.

Lemma save_to_gcs_returns cfg w eid data s :
  exists s' evs,
    save_to_gcs cfg w eid data s = (Ok tt, s') /\
    trace s' = trace s ++ ESaveToGcs eid data :: evs /\
    (evs = [] \/ exists key, evs = [EGcsUpload key data]
                 \/ evs = [EGcsUpload key data; EGcsMakePublic key]).
Proof.
  unfold save_to_gcs.
  destruct (negb (storage_lib cfg)); [run; done_with_trace; auto|].
  destruct (negb (is_set (GCS_BUCKET_NAME cfg))); [run; done_with_trace; auto|].
  run. destruct (gcs_client w _) as [[]|e]; [|done_with_trace; auto].
  destruct (gcs_upload w _ _ _) as [[]|e].
  - destruct (gcs_make_public w _ _) as [[]|e];
      done_with_trace; right; eexists; right; reflexivity.
  - done_with_trace. right. eexists. left. reflexivity.
Qed.

(** [tweet_crisis] never raises, and posts at most once: the first 280
    characters of its text. *)
Lemma tweet_crisis_returns cfg w event s :
  exists s' evs,
    tweet_crisis cfg w event s = (Ok tt, s') /\
    trace s' = trace s ++ evs /\
    (evs = [] \/
     exists text, tweet_text event = Ok text /\ evs = [EUpdateStatus (firstn 280 text)]).
Proof.
  unfold tweet_crisis.
  destruct (negb (twitter_configured cfg)).
  { exists s, []. rewrite app_nil_r. auto. }
  destruct (tweepy_lib cfg); run; [|exists s, []; rewrite app_nil_r; auto].
  destruct (tweet_text event) as [text|e]; [|exists s, []; rewrite app_nil_r; auto].
  destruct (tweepy_update_status w (tick s) (firstn 280 text)) as [[]|e];
    done_with_trace; right; exists text; auto.
Qed.

(* ===================================================================== *)
(** ** process_event *)
(* ===================================================================== *)

(** An item classified as a crisis: [process_event] returns normally after
    the enrichment calls, one [write_to_sheet], one [save_to_gcs] and the
    posting attempt, in that order, and the record is built as follows. *)
Lemma process_event_crisis cfg w article s :
  fst (classify_crisis cfg w (full_text article) s) = Ok (py "CRISIS") ->
  exists s' r enrich sheet gcs post,
    process_event cfg w article s = (Ok tt, s') /\
    trace s' = trace s ++ enrich ++ EWriteToSheet (row_of r) :: sheet
               ++ ESaveToGcs (event_id r) r :: gcs ++ post /\
    forallb is_enrichment enrich = true /\
    (sheet = [] \/ sheet = [ESheetAppend (row_of r)]) /\
    (gcs = [] \/ exists key, gcs = [EGcsUpload key r]
                 \/ gcs = [EGcsUpload key r; EGcsMakePublic key]) /\
    (post = [] \/
     exists text, tweet_text r = Ok text /\ post = [EUpdateStatus (firstn 280 text)]) /\
    location r = or_default (a_location article) (py "Unknown") /\
    event_type r = infer_event_type (full_text article) /\
    title r = a_title article /\ description r = a_description article /\
    source_url r = a_url article /\
    (0 <= people_affected r)%Z /\ (0 <= severity_score r)%Z /\
    List.length (donation_links r) <= 3 /\
    (geocoder_fails w -> lat r = 0%float /\ lng r = 0%float).
Proof.
  intros H. unfold process_event. cbv beta iota zeta delta [bind].
  change (fmt (a_title article) ++ [nl; nl] ++ fmt (a_description article))
    with (full_text article).
  destruct (classify_crisis_returns cfg w (full_text article) s)
    as (c & s1 & e1 & E1 & T1 & P1).
  rewrite E1 in H |- *. simpl in H. injection H as ->.
  change (negb (str_eqb (py "CRISIS") (py "CRISIS"))) with false. cbv beta iota.
  destruct (estimate_impact_returns cfg w (full_text article) s1)
    as (p & sv & s2 & e2 & E2 & T2 & P2 & Hp & Hsv).
  rewrite E2. cbv beta iota.
  destruct (generate_summary_returns cfg w (full_text article) s2)
    as (sm & s3 & e3 & E3 & T3 & P3).
  rewrite E3. cbv beta iota.
  destruct (geocode_returns cfg w (or_default (a_location article) (py "Unknown")) s3)
    as (la & ln & s4 & e4 & E4 & T4 & P4 & Hgeo).
  rewrite E4. cbv beta iota.
  destruct (suggest_donations_returns cfg w (infer_event_type (full_text article)) s4)
    as (links & s5 & e5 & E5 & T5 & P5 & Hlen).
  rewrite E5. cbv beta iota delta [ask]. cbn [tick trace].
  set (eid := uuid4 w (tick s5)).
  set (now := utcnow w (S (tick s5))).
  set (r := {| timestamp := isoformat now; event_id := eid;
               location := or_default (a_location article) (py "Unknown");
               lat := la; lng := ln;
               event_type := infer_event_type (full_text article);
               title := a_title article; description := a_description article;
               summary := sm; people_affected := p; severity_score := sv;
               donation_links := links; source_url := a_url article |}).
  set (s6 := {| trace := trace s5; tick := S (S (tick s5)) |}).
  change [CStr (isoformat now); CStr eid;
          CStr (or_default (a_location article) (py "Unknown"));
          CFloat la; CFloat ln; CStr (infer_event_type (full_text article));
          CStr sm; CInt p; CInt sv; CJson links] with (row_of r).
  destruct (write_to_sheet_returns cfg w (row_of r) s6) as (s7 & e7 & E7 & T7 & P7).
  rewrite E7. cbv beta iota.
  destruct (save_to_gcs_returns cfg w eid r s7) as (s8 & e8 & E8 & T8 & P8).
  rewrite E8. cbv beta iota delta [try_except].
  destruct (tweet_crisis_returns cfg w r s8) as (s9 & e9 & E9 & T9 & P9).
  rewrite E9. cbv beta iota delta [ret].
  exists s9, r, (e1 ++ e2 ++ e3 ++ e4 ++ e5), e7, e8, e9.
  split; [reflexivity|]. split.
  { rewrite T9, T8, T7. subst s6. cbn [trace]. rewrite T5, T4, T3, T2, T1.
    repeat rewrite <- app_assoc. reflexivity. }
  split.
  { rewrite !forallb_app, P1, P2, P3, P4, P5. reflexivity. }
  repeat (split; [first [assumption | reflexivity]|]). exact Hgeo.
Qed.

Lemma rows_app a b : rows (a ++ b) = rows a ++ rows b.
Proof.
  induction a as [|e a IH]; [reflexivity|].
  destruct e; simpl; rewrite IH; reflexivity.
Qed.

Lemma dispatched_app a b : dispatched (a ++ b) = dispatched a ++ dispatched b.
Proof.
  induction a as [|e a IH]; [reflexivity|].
  destruct e; simpl; rewrite IH; reflexivity.
Qed.

Lemma posts_app a b : posts (a ++ b) = posts a ++ posts b.
Proof.
  induction a as [|e a IH]; [reflexivity|].
  destruct e; simpl; rewrite IH; reflexivity.
Qed.

Lemma enrichment_has_no_sink evs :
  forallb is_enrichment evs = true ->
  rows evs = [] /\ dispatched evs = [] /\ posts evs = [].
Proof.
  induction evs as [|e evs IH]; [auto|].
  simpl. intros H. apply andb_true_iff in H. destruct H as [He H].
  destruct e; try discriminate; simpl; auto.
Qed.

(** What an item classified as a crisis hands to the sinks: one row and
    one record, and the post, if any, after both. *)
Lemma process_event_dispatch cfg w article s :
  fst (classify_crisis cfg w (full_text article) s) = Ok (py "CRISIS") ->
  exists s' r before post,
    process_event cfg w article s = (Ok tt, s') /\
    trace s' = trace s ++ before ++ post /\
    rows before = [row_of r] /\ dispatched before = [r] /\ posts before = [] /\
    (post = [] \/
     exists text, tweet_text r = Ok text /\ post = [EUpdateStatus (firstn 280 text)]) /\
    location r = or_default (a_location article) (py "Unknown") /\
    event_type r = infer_event_type (full_text article) /\
    (0 <= people_affected r)%Z /\ (0 <= severity_score r)%Z /\
    List.length (donation_links r) <= 3 /\
    (geocoder_fails w -> lat r = 0%float /\ lng r = 0%float).
Proof.
  intros H.
  destruct (process_event_crisis cfg w article s H)
    as (s' & r & enrich & sheet & gcs & post & E & T & Pe & Ps & Pg & Pp
        & Hloc & Hty & _ & _ & _ & Hp & Hsv & Hlen & Hgeo).
  exists s', r,
    (enrich ++ EWriteToSheet (row_of r) :: sheet ++ ESaveToGcs (event_id r) r :: gcs),
    post.
  destruct (enrichment_has_no_sink enrich Pe) as (R1 & D1 & O1).
  split; [exact E|]. split.
  { rewrite T. repeat rewrite <- app_assoc. simpl. repeat rewrite <- app_assoc.
    reflexivity. }
  assert (R2 : rows sheet = [] /\ dispatched sheet = [] /\ posts sheet = []).
  { destruct Ps as [->| ->]; simpl; auto. }
  assert (R3 : rows gcs = [] /\ dispatched gcs = [] /\ posts gcs = []).
  { destruct Pg as [->|(key & [->| ->])]; simpl; auto. }
  destruct R2 as (R2 & D2 & O2). destruct R3 as (R3 & D3 & O3).
  split. { rewrite rows_app, R1. simpl. rewrite rows_app, R2. simpl. rewrite R3. reflexivity. }
  split. { rewrite dispatched_app, D1. simpl. rewrite dispatched_app, D2. simpl.
           rewrite D3. reflexivity. }
  split. { rewrite posts_app, O1. simpl. rewrite posts_app, O2. simpl. exact O3. }
  repeat (split; [assumption|]). exact Hgeo.
Qed.

(* ===================================================================== *)
(** ** Items that are filtered out *)
(* ===================================================================== *)

Lemma process_all_step cfg w article rest n s s1 :
  process_event cfg w article s = (Ok tt, s1) ->
  process_all cfg w (article :: rest) n s = process_all cfg w rest (n + 1) s1.
Proof.
  intros E. cbn [process_all]. cbv beta iota delta [bind try_except ret].
  rewrite E. reflexivity.
Qed.

Lemma skipn_length_app {A} (a b : list A) : skipn (List.length a) (a ++ b) = b.
Proof. induction a as [|x a IH]; [reflexivity | exact IH]. Qed.

Lemma added_from_trace {A} (m : M A) (s : State) (evs : list Event) :
  trace (snd (m s)) = trace s ++ evs -> added m s = evs.
Proof. intros E. unfold added. rewrite E. apply skipn_length_app. Qed.

Lemma str_neqb (a b : str) : a <> b -> str_eqb a b = false.
Proof.
  intros H. destruct (str_eqb a b) eqn:E; [|reflexivity].
  apply str_eqb_eq in E. contradiction.
Qed.

(** C4.  An item whose classification is not "CRISIS": [process_event]
    returns normally in the state the classification left, so nothing is
    called after it; what the item added to the trace is at most the one
    classification request, hence no other enrichment call and no sink
    event; and the loop of [main] goes on to the next item with the
    processed count incremented. *)
Theorem process_event_skips_non_crisis cfg w article rest n s c :
  fst (classify_crisis cfg w (full_text article) s) = Ok c ->
  c <> py "CRISIS" ->
  let s1 := snd (classify_crisis cfg w (full_text article) s) in
  process_event cfg w article s = (Ok tt, s1) /\
  (added (process_event cfg w article) s = [] \/
   added (process_event cfg w article) s
   = [EChat (classify_request (full_text article))]) /\
  existsb is_sink (added (process_event cfg w article) s) = false /\
  process_all cfg w (article :: rest) n s = process_all cfg w rest (n + 1) s1 /\
  main cfg w [article] s = (Ok (py "OK", 1), s1).
Proof.
  intros H Hc s1.
  assert (Hpe : process_event cfg w article s = (Ok tt, s1)).
  { subst s1. unfold process_event. cbv beta iota zeta delta [bind].
    change (fmt (a_title article) ++ [nl; nl] ++ fmt (a_description article))
      with (full_text article).
    destruct (classify_crisis cfg w (full_text article) s) as [r s1] eqn:E.
    simpl in H. subst r. rewrite (str_neqb c (py "CRISIS") Hc). reflexivity. }
  assert (Hadd : added (process_event cfg w article) s = [] \/
                 added (process_event cfg w article) s
                 = [EChat (classify_request (full_text article))]).
  { subst s1. rewrite classify_crisis_run in Hpe.
    destruct (is_set (OPENAI_API_KEY cfg)); simpl snd in Hpe.
    - right. apply added_from_trace. rewrite Hpe. reflexivity.
    - left. apply added_from_trace. rewrite Hpe. simpl. rewrite app_nil_r. reflexivity. }
  split; [exact Hpe|]. split; [exact Hadd|]. split.
  - destruct Hadd as [-> | ->]; reflexivity.
  - split; [apply process_all_step, Hpe|].
    unfold main. cbv beta iota delta [bind].
    rewrite (process_all_step cfg w article [] 0 s s1 Hpe). reflexivity.
Qed.

(** The completion service answers "Not relevant.": the item is filtered
    and counted. *)
Lemma process_event_skips_non_crisis_witness :
  let w := world_of (fun _ => Ok (py "Not relevant.")) GeoRaises in
  process_event cfg_full w flood_article initial
  = (Ok tt, snd (classify_crisis cfg_full w (full_text flood_article) initial)) /\
  existsb is_sink (added (process_event cfg_full w flood_article) initial) = false /\
  fst (process_all cfg_full w [flood_article] 0 initial) = Ok 1.
Proof.
  intros w.
  destruct (process_event_skips_non_crisis cfg_full w flood_article [] 0 initial
              (py "NOT CRISIS") eq_refl)
    as (E & _ & Hs & Hall & _).
  - discriminate.
  - split; [exact E|]. split; [exact Hs|]. rewrite Hall. reflexivity.
Defined.

(* ===================================================================== *)
(** ** Geocoding failures *)
(* ===================================================================== *)



(* ===================================================================== *)
(** ** The post *)
(* ===================================================================== *)

Lemma first_line_prefix (s : str) : exists rest, s = first_line s ++ rest.
Proof.
  unfold first_line. induction s as [|c r [rest IH]].
  - exists []. reflexivity.
  - cbn [split]. destruct (c =? nl)%N.
    + exists (c :: r). reflexivity.
    + destruct (split nl r) as [|h t]; simpl in *.
      * exists r. reflexivity.
      * exists rest. rewrite <- IH. reflexivity.
Qed.

Lemma occurs_mid (a x b : str) : occurs x (a ++ x ++ b).
Proof. exists a, b. reflexivity. Qed.

(** What the text of a post contains. *)
Lemma tweet_text_contents (event : EventRecord) (text : str) :
  tweet_text event = Ok text ->
  exists link,
    item0 (donation_links event) = Ok link /\
    occurs (location event) text /\
    occurs (str_of_Z (people_affected event)) text /\
    occurs (event_type event) text /\
    occurs (summary event) text /\
    occurs (first_line (summary event)) text /\
    occurs link text.
Proof.
  unfold tweet_text. destruct (item0 (donation_links event)) as [link|e];
    [|discriminate].
  intros E. injection E as <-. exists link. split; [reflexivity|].
  set (l := location event). set (p := str_of_Z (people_affected event)).
  set (t := event_type event). set (m := summary event).
  repeat split.
  - exists ([siren] ++ py " Crisis in "),
      (py ": " ++ p ++ py " affected by " ++ t ++ [nl] ++ m ++ [nl] ++ py "Help: " ++ link).
    repeat rewrite <- app_assoc. reflexivity.
  - exists ([siren] ++ py " Crisis in " ++ l ++ py ": "),
      (py " affected by " ++ t ++ [nl] ++ m ++ [nl] ++ py "Help: " ++ link).
    repeat rewrite <- app_assoc. reflexivity.
  - exists ([siren] ++ py " Crisis in " ++ l ++ py ": " ++ p ++ py " affected by "),
      ([nl] ++ m ++ [nl] ++ py "Help: " ++ link).
    repeat rewrite <- app_assoc. reflexivity.
  - exists ([siren] ++ py " Crisis in " ++ l ++ py ": " ++ p ++ py " affected by "
            ++ t ++ [nl]),
      ([nl] ++ py "Help: " ++ link).
    repeat rewrite <- app_assoc. reflexivity.
  - destruct (first_line_prefix m) as [rest Hm].
    exists ([siren] ++ py " Crisis in " ++ l ++ py ": " ++ p ++ py " affected by "
            ++ t ++ [nl]),
      (rest ++ [nl] ++ py "Help: " ++ link).
    rewrite Hm at 1. repeat rewrite <- app_assoc. reflexivity.
  - exists ([siren] ++ py " Crisis in " ++ l ++ py ": " ++ p ++ py " affected by "
            ++ t ++ [nl] ++ m ++ [nl] ++ py "Help: "), [].
    rewrite app_nil_r. repeat rewrite <- app_assoc. reflexivity.
Qed.

Lemma post_crisis_tweet_posts cfg w event s text :
  tweepy_lib cfg = true -> twitter_configured cfg = true ->
  tweet_text event = Ok text ->
  added (post_crisis_tweet cfg w event) s = [EUpdateStatus (firstn 280 text)].
Proof.
  intros Hl Hc Ht. apply added_from_trace.
  unfold post_crisis_tweet. rewrite Hl, Hc. cbn [negb].
  unfold tweet_text in Ht.
  destruct (item0 (donation_links event)) as [link|e] eqn:E; [|discriminate].
  injection Ht as <-. run. reflexivity.
Qed.

(** C9, as the code has it.  [tweet_crisis] never raises and posts at most
    once; what it posts is the first 280 characters of the text it composes,
    so at most 280 characters.  The composed text contains the location, the
    number of people affected, the event type, the whole summary (hence its
    first line) and the first donation link, and when it has at most 280
    characters the post is that text unchanged.  In [process_event] the post,
    if any, comes after the one row and the one record handed to the sinks,
    and [process_event] returns normally whatever the posting call does.
    [post_crisis_tweet] posts the same 280 characters. *)
Theorem tweet_is_truncated_text cfg w :
  (forall event s,
     exists s' evs,
       tweet_crisis cfg w event s = (Ok tt, s') /\
       trace s' = trace s ++ evs /\
       (evs = [] \/
        exists text, tweet_text event = Ok text /\
                     evs = [EUpdateStatus (firstn 280 text)] /\
                     List.length (firstn 280 text) <= 280)) /\
  (forall event text,
     tweet_text event = Ok text ->
     exists link,
       item0 (donation_links event) = Ok link /\
       occurs (location event) text /\
       occurs (str_of_Z (people_affected event)) text /\
       occurs (event_type event) text /\
       occurs (summary event) text /\
       occurs (first_line (summary event)) text /\
       occurs link text /\
       (List.length text <= 280 -> firstn 280 text = text)) /\
  (forall article s,
     fst (classify_crisis cfg w (full_text article) s) = Ok (py "CRISIS") ->
     exists s' r before post,
       process_event cfg w article s = (Ok tt, s') /\
       trace s' = trace s ++ before ++ post /\
       rows before = [row_of r] /\ dispatched before = [r] /\ posts before = [] /\
       (post = [] \/
        exists text, tweet_text r = Ok text /\
                     post = [EUpdateStatus (firstn 280 text)])) /\
  (forall event s text,
     tweepy_lib cfg = true -> twitter_configured cfg = true ->
     tweet_text event = Ok text ->
     added (post_crisis_tweet cfg w event) s = [EUpdateStatus (firstn 280 text)]).
Proof.
  split; [|split; [|split]].
  - intros event s.
    destruct (tweet_crisis_returns cfg w event s) as (s' & evs & E & T & P).
    exists s', evs. split; [exact E|]. split; [exact T|].
    destruct P as [->|(text & Ht & ->)]; [left; reflexivity|].
    right. exists text. split; [exact Ht|]. split; [reflexivity|].
    rewrite length_firstn. apply Nat.le_min_l.
  - intros event text Ht.
    destruct (tweet_text_contents event text Ht)
      as (link & H0 & H1 & H2 & H3 & H4 & H5 & H6).
    exists link. repeat (split; [assumption|]).
    intros Hlen. apply firstn_all2, Hlen.
  - intros article s H.
    destruct (process_event_dispatch cfg w article s H)
      as (s' & r & before & post & E & T & R & D & O & Pp & _).
    exists s', r, before, post. repeat (split; [assumption|]). exact Pp.
  - intros event s text. apply post_crisis_tweet_posts.
Qed.

(** A post that fits: the flood record with a short summary. *)
Lemma tweet_is_truncated_text_witness :
  let event := flood_event (py "Severe flooding in Jakarta has displaced thousands.")
                 [py "https://www.directrelief.org/"; py "https://www.unhcr.org/"] in
  exists text,
    tweet_text event = Ok text /\
    firstn 280 text = text /\
    occurs (first_line (summary event)) text /\
    occurs (py "https://www.directrelief.org/") text.
Proof.
  intros event.
  destruct (proj1 (proj2 (tweet_is_truncated_text cfg_full
                            (world_of flood_reply GeoRaises))) event _ eq_refl)
    as (link & H0 & _ & _ & _ & _ & H5 & H6 & H7).
  eexists. split; [reflexivity|]. split; [|split].
  - apply H7. vm_compute. repeat constructor.
  - exact H5.
  - injection H0 as <-. exact H6.
Defined.

(** C9, as the specification words it, fails.  The flood item with a
    summary of 300 characters: the record is dispatched and a post is made,
    of exactly 280 characters, which contains neither the first line of the
    summary nor the first donation link of the record. *)
Lemma tweet_truncation_drops_fields :
  exists s' r status,
    process_event cfg_full (world_of long_summary_reply GeoRaises)
      flood_article initial = (Ok tt, s') /\
    dispatched (trace s') = [r] /\ posts (trace s') = [status] /\
    List.length status = 280 /\
    item0 (donation_links r) = Ok (py "Red Cross") /\
    first_line (summary r) = repeat (chr "a") 300 /\
    str_in (first_line (summary r)) status = false /\
    str_in (py "Red Cross") status = false.
Proof.
  do 3 eexists. split; [vm_compute; reflexivity|].
  split; [vm_compute; reflexivity|].
  split; [vm_compute; reflexivity|].
  repeat split; vm_compute; reflexivity.
Qed.

(* ===================================================================== *)
(** ** The location *)
(* ===================================================================== *)

(** C1, on the code.  [extract_location] returns [None] for every text, and
    so never the empty string; on the text of the flood item in particular.
    The second half of the claim holds: an item whose location is [None] or
    the empty string, once classified as a crisis, is handed to both sinks
    with the location "Unknown". *)
Theorem extract_location_yields_none :
  (forall text, extract_location text = None) /\
  extract_location (py "Flood devastates Jakarta" ++ py " "
                    ++ py "Thousands displaced after monsoon floods.") <> Some [] /\
  (forall cfg w article s,
     a_location article = None \/ a_location article = Some [] ->
     fst (classify_crisis cfg w (full_text article) s) = Ok (py "CRISIS") ->
     exists s' evs r,
       process_event cfg w article s = (Ok tt, s') /\
       trace s' = trace s ++ evs /\
       rows evs = [row_of r] /\ dispatched evs = [r] /\
       location r = py "Unknown" /\
       nth 2 (row_of r) (CInt 0) = CStr (py "Unknown")).
Proof.
  split; [reflexivity|]. split; [discriminate|].
  intros cfg w article s Hloc H.
  destruct (process_event_dispatch cfg w article s H)
    as (s' & r & before & post & E & T & R & D & O & Pp & Hl & _).
  exists s', (before ++ post), r.
  split; [exact E|]. split; [exact T|].
  assert (Hpost : rows post = [] /\ dispatched post = []).
  { destruct Pp as [->|(text & _ & ->)]; simpl; auto. }
  destruct Hpost as [Rp Dp].
  split. { rewrite rows_app, R, Rp. reflexivity. }
  split. { rewrite dispatched_app, D, Dp. reflexivity. }
  assert (Hu : location r = py "Unknown").
  { rewrite Hl. destruct Hloc as [-> | ->]; reflexivity. }
  split; [exact Hu|]. simpl. rewrite Hu. reflexivity.
Qed.

(** The flood item, whose location the adapter took from
    [extract_location]. *)
Lemma extract_location_yields_none_witness :
  let w := world_of flood_reply GeoRaises in
  exists s' evs r,
    process_event cfg_full w flood_article initial = (Ok tt, s') /\
    trace s' = trace initial ++ evs /\
    rows evs = [row_of r] /\ dispatched evs = [r] /\
    location r = py "Unknown" /\
    nth 2 (row_of r) (CInt 0) = CStr (py "Unknown").
Proof.
  intros w.
  apply (proj2 (proj2 extract_location_yields_none) cfg_full w flood_article initial).
  - left. reflexivity.
  - reflexivity.
Defined.

(* ===================================================================== *)
(** ** The invariants of the record *)
(* ===================================================================== *)







(* ===================================================================== *)
(** ** The end-to-end scenario *)
(* ===================================================================== *)

(** The flood item with its location given, every collaborator configured
    and answering: the row, the record and the post, in that order. *)
Lemma jakarta_scenario :
  let w := world_of flood_reply jakarta_geo in
  let s' := snd (process_event cfg_full w jakarta_article initial) in
  let ts := py "2024-05-01T12:00:00+00:00" in
  let id := py "123e4567-e89b-42d3-a456-426614174000" in
  let links := [py "Red Cross"; py "https://redcross.org"; py "UNHCR"] in
  fst (process_event cfg_full w jakarta_article initial) = Ok tt /\
  rows (trace s')
  = [[CStr ts; CStr id; CStr (py "Jakarta"); CFloat (-6.2); CFloat 106.8;
      CStr (py "Flood");
      CStr (py "Severe flooding in Jakarta has displaced thousands.");
      CInt 5000; CInt 60; CJson links]] /\
  map row_of (dispatched (trace s')) = rows (trace s') /\
  posts (trace s')
  = [[siren] ++ py " Crisis in Jakarta: 5000 affected by Flood" ++ [nl]
     ++ py "Severe flooding in Jakarta has displaced thousands." ++ [nl]
     ++ py "Help: Red Cross"] /\
  map is_sink (trace s')
  = [false; false; false; false; false; true; true; true; true; true; true].
Proof. vm_compute. repeat split. Qed.

(* ===================================================================== *)
(** ** Further facts: the enrichment calls *)
(* ===================================================================== *)







(* ===================================================================== *)
(** ** Further facts: the sinks *)
(* ===================================================================== *)

Lemma write_to_sheet_run cfg w row s :
  write_to_sheet cfg w row s =
  if google_api_libs cfg && is_set (GOOGLE_SERVICE_ACCOUNT_JSON cfg)
     && is_set (GOOGLE_SHEET_ID cfg)
  then match sheets_service w (tick s) with
       | Ok _ => (Ok tt, {| trace := trace s ++ [EWriteToSheet row; ESheetAppend row];
                            tick := S (S (tick s)) |})
       | Exc _ => (Ok tt, {| trace := trace s ++ [EWriteToSheet row];
                             tick := S (tick s) |})
       end
  else (Ok tt, {| trace := trace s ++ [EWriteToSheet row]; tick := tick s |}).
Proof.
  unfold write_to_sheet.
  destruct (google_api_libs cfg); [|reflexivity].
  destruct (is_set (GOOGLE_SERVICE_ACCOUNT_JSON cfg)); [|reflexivity].
  destruct (is_set (GOOGLE_SHEET_ID cfg)); [|reflexivity].
  cbn [negb orb andb]. run.
  destruct (sheets_service w (tick s)) as [[]|e]; [|reflexivity].
  destruct (sheets_append w (S (tick s)) row) as [[]|e];
    rewrite <- app_assoc; reflexivity.
Qed.

(** X3.  [write_to_sheet] never raises and appends at most once, the row
    it is given.  With the client libraries missing or either credential
    unset it consults no service.  When the service cannot be built
    nothing is appended; when it can, the append is attempted exactly once,
    and a failure of the append is not reported to the caller. *)
Theorem write_to_sheet_appends_once cfg w row s :
  exists s' evs,
    write_to_sheet cfg w row s = (Ok tt, s') /\
    trace s' = trace s ++ EWriteToSheet row :: evs /\
    (evs = [] \/ evs = [ESheetAppend row]) /\
    (google_api_libs cfg = false \/ is_set (GOOGLE_SERVICE_ACCOUNT_JSON cfg) = false
     \/ is_set (GOOGLE_SHEET_ID cfg) = false ->
     evs = [] /\ tick s' = tick s) /\
    (google_api_libs cfg = true -> is_set (GOOGLE_SERVICE_ACCOUNT_JSON cfg) = true ->
     is_set (GOOGLE_SHEET_ID cfg) = true ->
     (evs = [ESheetAppend row] <-> sheets_service w (tick s) = Ok tt)).
Proof.
  rewrite write_to_sheet_run.
  destruct (google_api_libs cfg) eqn:L;
    [destruct (is_set (GOOGLE_SERVICE_ACCOUNT_JSON cfg)) eqn:A;
     [destruct (is_set (GOOGLE_SHEET_ID cfg)) eqn:B|]|]; simpl andb; cbv iota.
  - destruct (sheets_service w (tick s)) as [[]|e].
    + do 2 eexists. split; [reflexivity|]. split; [reflexivity|].
      split; [auto|]. split.
      * intros [H|[H|H]]; discriminate.
      * intros _ _ _. split; reflexivity.
    + do 2 eexists. split; [reflexivity|]. split; [reflexivity|].
      split; [auto|]. split.
      * intros [H|[H|H]]; discriminate.
      * intros _ _ _. split; discriminate.
  - do 2 eexists. split; [reflexivity|]. split; [reflexivity|]. split; [auto|].
    split; [auto | intros; discriminate].
  - do 2 eexists. split; [reflexivity|]. split; [reflexivity|]. split; [auto|].
    split; [auto | intros; discriminate].
  - do 2 eexists. split; [reflexivity|]. split; [reflexivity|]. split; [auto|].
    split; [auto | intros; discriminate].
Qed.

(** The append raises: the caller does not see it. *)
Lemma write_to_sheet_appends_once_witness :
  exists s',
    write_to_sheet cfg_full (world_failing_sinks flood_reply) [CInt 1] initial
    = (Ok tt, s') /\
    trace s' = [EWriteToSheet [CInt 1]; ESheetAppend [CInt 1]].
Proof.
  destruct (write_to_sheet_appends_once cfg_full (world_failing_sinks flood_reply)
              [CInt 1] initial)
    as (s' & evs & E & T & _ & _ & H).
  exists s'. split; [exact E|]. rewrite T.
  rewrite (proj2 (H eq_refl eq_refl eq_refl) eq_refl). reflexivity.
Defined.

Lemma save_to_gcs_run cfg w eid data s :
  save_to_gcs cfg w eid data s =
  if storage_lib cfg && is_set (GCS_BUCKET_NAME cfg)
  then
    let key := gcs_key (utcnow w (tick s)) eid in
    match gcs_client w (S (tick s)) with
    | Exc _ => (Ok tt, {| trace := trace s ++ [ESaveToGcs eid data];
                          tick := S (S (tick s)) |})
    | Ok _ =>
        match gcs_upload w (S (S (tick s))) key data with
        | Exc _ => (Ok tt, {| trace := trace s ++ [ESaveToGcs eid data;
                                                   EGcsUpload key data];
                              tick := S (S (S (tick s))) |})
        | Ok _ => (Ok tt, {| trace := trace s ++ [ESaveToGcs eid data;
                                                  EGcsUpload key data;
                                                  EGcsMakePublic key];
                             tick := S (S (S (S (tick s)))) |})
        end
    end
  else (Ok tt, {| trace := trace s ++ [ESaveToGcs eid data]; tick := tick s |}).
Proof.
  unfold save_to_gcs.
  destruct (storage_lib cfg); [|reflexivity].
  destruct (is_set (GCS_BUCKET_NAME cfg)); [|reflexivity].
  cbn [negb orb andb]. run. fold (gcs_key (utcnow w (tick s)) eid). cbv zeta.
  destruct (gcs_client w (S (tick s))) as [[]|e]; [|reflexivity].
  destruct (gcs_upload w _ _ _) as [[]|e];
    [|repeat rewrite <- app_assoc; reflexivity].
  destruct (gcs_make_public w _ _) as [[]|e];
    repeat rewrite <- app_assoc; reflexivity.
Qed.

Lemma upload_event_run cfg w eid data s :
  upload_event cfg w eid data s =
  if storage_lib cfg && is_set (GCS_BUCKET_NAME cfg)
  then
    let key := gcs_key (utcnow w (tick s)) eid in
    match gcs_client w (S (tick s)) with
    | Exc e => (Exc e, {| trace := trace s; tick := S (S (tick s)) |})
    | Ok _ =>
        match gcs_upload w (S (S (tick s))) key data with
        | Exc e => (Exc e, {| trace := trace s ++ [EGcsUpload key data];
                              tick := S (S (S (tick s))) |})
        | Ok _ => (gcs_make_public w (S (S (S (tick s)))) key,
                   {| trace := trace s ++ [EGcsUpload key data; EGcsMakePublic key];
                      tick := S (S (S (S (tick s)))) |})
        end
    end
  else (Exc RuntimeError, s).
Proof.
  unfold upload_event.
  destruct (storage_lib cfg); [|reflexivity].
  destruct (is_set (GCS_BUCKET_NAME cfg)); [|reflexivity].
  cbn [negb orb andb]. run. fold (gcs_key (utcnow w (tick s)) eid). cbv zeta.
  destruct (gcs_client w (S (tick s))) as [[]|e]; [|reflexivity].
  destruct (gcs_upload w _ _ _) as [[]|e]; [|reflexivity].
  destruct (gcs_make_public w _ _) as [[]|e];
    repeat rewrite <- app_assoc; reflexivity.
Qed.

(** X4.  [save_to_gcs] never raises.  With the storage library missing or
    the bucket unset it consults nothing.  Otherwise the object key is
    events/YYYY/MM/DD/<event id>.json for the date read when the function
    is entered; the record uploaded is the one given; and the object is
    made public only after its upload succeeded. *)
Theorem save_to_gcs_key_and_publication cfg w eid data s :
  let key := gcs_key (utcnow w (tick s)) eid in
  exists s' evs,
    save_to_gcs cfg w eid data s = (Ok tt, s') /\
    trace s' = trace s ++ ESaveToGcs eid data :: evs /\
    (evs = [] \/ evs = [EGcsUpload key data]
     \/ evs = [EGcsUpload key data; EGcsMakePublic key]) /\
    (storage_lib cfg = false \/ is_set (GCS_BUCKET_NAME cfg) = false ->
     evs = [] /\ tick s' = tick s) /\
    (In (EGcsMakePublic key) evs ->
     gcs_client w (S (tick s)) = Ok tt /\
     gcs_upload w (S (S (tick s))) key data = Ok tt).
Proof.
  intros key. rewrite save_to_gcs_run. fold key. cbv zeta.
  destruct (storage_lib cfg) eqn:L; [destruct (is_set (GCS_BUCKET_NAME cfg)) eqn:B|];
    simpl andb; cbv iota.
  - destruct (gcs_client w (S (tick s))) as [[]|e].
    + destruct (gcs_upload w (S (S (tick s))) key data) as [[]|e].
      * do 2 eexists. split; [reflexivity|]. split; [reflexivity|].
        split; [auto|]. split; [intros [H|H]; discriminate | auto].
      * do 2 eexists. split; [reflexivity|]. split; [reflexivity|].
        split; [auto|]. split; [intros [H|H]; discriminate|].
        intros [H|[]]. discriminate.
    + do 2 eexists. split; [reflexivity|]. split; [reflexivity|].
      split; [auto|]. split; [intros [H|H]; discriminate | intros []].
  - do 2 eexists. split; [reflexivity|]. split; [reflexivity|].
    split; [auto|]. split; [auto | intros []].
  - do 2 eexists. split; [reflexivity|]. split; [reflexivity|].
    split; [auto|]. split; [auto | intros []].
Qed.

(** The key for an upload on 1 May 2024. *)
Lemma save_to_gcs_key_and_publication_witness :
  let data := flood_event [] [] in
  let key := py "events/2024/05/01/id.json" in
  exists s' evs,
    save_to_gcs cfg_full (world_failing_sinks flood_reply) (py "id") data initial
    = (Ok tt, s') /\
    trace s' = trace initial ++ ESaveToGcs (py "id") data :: evs /\
    (evs = [] \/ evs = [EGcsUpload key data]
     \/ evs = [EGcsUpload key data; EGcsMakePublic key]).
Proof.
  intros data key.
  destruct (save_to_gcs_key_and_publication cfg_full (world_failing_sinks flood_reply)
              (py "id") data initial)
    as (s' & evs & E & T & D & _).
  exists s', evs. split; [exact E|]. split; [exact T | exact D].
Defined.

(** X5.  [upload_event] of gcs_uploader.py and [save_to_gcs] perform the
    same upload: with the library and the bucket configured, both read the
    date, build the same key and make the same calls, so [save_to_gcs] adds
    to the trace what [upload_event] adds, after its own entry.  They differ
    in what the caller sees: [upload_event] raises a [RuntimeError] without
    consulting anything when not configured, and passes on the first
    exception of the client, the upload or the publication, where
    [save_to_gcs] returns normally. *)
Theorem upload_event_same_upload cfg w eid data s :
  (storage_lib cfg = false \/ is_set (GCS_BUCKET_NAME cfg) = false ->
   upload_event cfg w eid data s = (Exc RuntimeError, s)) /\
  (storage_lib cfg = true -> is_set (GCS_BUCKET_NAME cfg) = true ->
   let key := gcs_key (utcnow w (tick s)) eid in
   added (save_to_gcs cfg w eid data) s
   = ESaveToGcs eid data :: added (upload_event cfg w eid data) s /\
   tick (snd (save_to_gcs cfg w eid data s))
   = tick (snd (upload_event cfg w eid data s)) /\
   (fst (upload_event cfg w eid data s) = Ok tt <->
    gcs_client w (S (tick s)) = Ok tt /\
    gcs_upload w (S (S (tick s))) key data = Ok tt /\
    gcs_make_public w (S (S (S (tick s)))) key = Ok tt)) /\
  fst (save_to_gcs cfg w eid data s) = Ok tt.
Proof.
  split; [|split].
  - intros H. rewrite upload_event_run.
    destruct H as [-> | ->]; [reflexivity|]. rewrite andb_false_r. reflexivity.
  - intros L B key.
    assert (Hs := save_to_gcs_run cfg w eid data s).
    assert (Hu := upload_event_run cfg w eid data s).
    rewrite L, B in Hs, Hu. simpl andb in Hs, Hu. cbv iota zeta in Hs, Hu.
    fold key in Hs, Hu.
    destruct (gcs_client w (S (tick s))) as [[]|e].
    + destruct (gcs_upload w (S (S (tick s))) key data) as [[]|e'].
      * split; [|split].
        -- rewrite (added_from_trace _ s
                      [ESaveToGcs eid data; EGcsUpload key data; EGcsMakePublic key])
             by (rewrite Hs; reflexivity).
           rewrite (added_from_trace _ s [EGcsUpload key data; EGcsMakePublic key])
             by (rewrite Hu; reflexivity).
           reflexivity.
        -- rewrite Hs, Hu. reflexivity.
        -- rewrite Hu. simpl fst. split; [intros H; auto | intros (_ & _ & H); exact H].
      * split; [|split].
        -- rewrite (added_from_trace _ s [ESaveToGcs eid data; EGcsUpload key data])
             by (rewrite Hs; reflexivity).
           rewrite (added_from_trace _ s [EGcsUpload key data])
             by (rewrite Hu; reflexivity).
           reflexivity.
        -- rewrite Hs, Hu. reflexivity.
        -- rewrite Hu. simpl fst.
           split; [discriminate | intros (_ & H & _); discriminate].
    + split; [|split].
      * rewrite (added_from_trace _ s [ESaveToGcs eid data])
          by (rewrite Hs; reflexivity).
        rewrite (added_from_trace _ s [])
          by (rewrite Hu; simpl; rewrite app_nil_r; reflexivity).
        reflexivity.
      * rewrite Hs, Hu. reflexivity.
      * rewrite Hu. simpl fst. split; [discriminate | intros (H & _); discriminate].
  - destruct (save_to_gcs_returns cfg w eid data s) as (s' & evs & E & _).
    rewrite E. reflexivity.
Qed.

(** Everything configured and every call succeeding. *)
Lemma upload_event_same_upload_witness :
  let w := world_of flood_reply GeoRaises in
  let data := flood_event [] [] in
  added (save_to_gcs cfg_full w (py "id") data) initial
  = ESaveToGcs (py "id") data :: added (upload_event cfg_full w (py "id") data) initial
  /\ fst (upload_event cfg_full w (py "id") data initial) = Ok tt.
Proof.
  intros w data.
  destruct (upload_event_same_upload cfg_full w (py "id") data initial)
    as (_ & H & _).
  destruct (H eq_refl eq_refl) as (Ha & _ & Hok).
  split; [exact Ha|]. apply Hok. repeat split.
Defined.

(* ===================================================================== *)
(** ** Further facts: the two posting functions *)
(* ===================================================================== *)

(** X6.  [tweet_crisis] does nothing at all, and returns normally, when any
    of the four credentials is unset, when tweepy cannot be imported, or
    when the record has no donation link.  Otherwise it calls the posting
    API exactly once, with the first 280 characters of its text, and returns
    normally whatever the API does. *)
Theorem tweet_crisis_posts_or_skips cfg w event s :
  (twitter_configured cfg = false \/ tweepy_lib cfg = false
   \/ donation_links event = [] ->
   tweet_crisis cfg w event s = (Ok tt, s)) /\
  (twitter_configured cfg = true -> tweepy_lib cfg = true ->
   donation_links event <> [] ->
   exists text,
     tweet_text event = Ok text /\
     tweet_crisis cfg w event s = (Ok tt, after s (EUpdateStatus (firstn 280 text)))).
Proof.
  unfold tweet_crisis. split.
  - intros [H|[H|H]].
    + rewrite H. reflexivity.
    + rewrite H. destruct (twitter_configured cfg); reflexivity.
    + unfold tweet_text. rewrite H.
      destruct (twitter_configured cfg); [|reflexivity].
      destruct (tweepy_lib cfg); reflexivity.
  - intros Hc Hl Hd. rewrite Hc, Hl. unfold tweet_text.
    destruct (donation_links event) as [|link rest]; [contradiction|].
    eexists. split; [reflexivity|]. cbn [negb]. run. cbn [item0].
    destruct (tweepy_update_status w (tick s) _) as [[]|e]; reflexivity.
Qed.

(** A record without donation links; and a post that the API refuses. *)
Lemma tweet_crisis_posts_or_skips_witness :
  tweet_crisis cfg_full (world_failing_sinks flood_reply) (flood_event [] []) initial
  = (Ok tt, initial) /\
  fst (tweet_crisis cfg_full (world_failing_sinks flood_reply)
         (flood_event [] [py "https://www.unhcr.org/"]) initial) = Ok tt.
Proof.
  split.
  - apply (proj1 (tweet_crisis_posts_or_skips cfg_full (world_failing_sinks flood_reply)
                    (flood_event [] []) initial)).
    right. right. reflexivity.
  - destruct (proj2 (tweet_crisis_posts_or_skips cfg_full
                       (world_failing_sinks flood_reply)
                       (flood_event [] [py "https://www.unhcr.org/"]) initial)
                eq_refl eq_refl) as (text & _ & E); [discriminate|].
    rewrite E. reflexivity.
Defined.

(** X7.  [post_crisis_tweet] of tweet_bot.py reports what [tweet_crisis]
    hides.  It raises a [RuntimeError], posting nothing, when tweepy is
    missing or a credential is unset; it raises an [IndexError], posting
    nothing, when the record has no donation link; otherwise it calls the
    posting API once with the first 280 characters of the same text and
    its outcome is that of the call. *)
Theorem post_crisis_tweet_raises cfg w event s :
  (tweepy_lib cfg = false \/ twitter_configured cfg = false ->
   post_crisis_tweet cfg w event s = (Exc RuntimeError, s)) /\
  (tweepy_lib cfg = true -> twitter_configured cfg = true ->
   donation_links event = [] ->
   post_crisis_tweet cfg w event s = (Exc IndexError, s)) /\
  (tweepy_lib cfg = true -> twitter_configured cfg = true ->
   forall text,
     tweet_text event = Ok text ->
     post_crisis_tweet cfg w event s
     = (tweepy_update_status w (tick s) (firstn 280 text),
        after s (EUpdateStatus (firstn 280 text)))).
Proof.
  unfold post_crisis_tweet. split; [|split].
  - intros [H|H]; rewrite H; [reflexivity|].
    destruct (tweepy_lib cfg); reflexivity.
  - intros Hl Hc Hd. rewrite Hl, Hc, Hd. reflexivity.
  - intros Hl Hc text Ht. rewrite Hl, Hc. unfold tweet_text in Ht.
    destruct (donation_links event) as [|link rest]; [discriminate|].
    cbn [item0] in Ht. injection Ht as <-. cbn [negb]. run. cbn [item0].
    destruct (tweepy_update_status w (tick s) _) as [[]|e]; reflexivity.
Qed.

(** The API refuses the post: [post_crisis_tweet] raises, [tweet_crisis]
    does not. *)
Lemma post_crisis_tweet_raises_witness :
  let w := world_failing_sinks flood_reply in
  let event := flood_event [] [py "https://www.unhcr.org/"] in
  fst (post_crisis_tweet cfg_full w event initial) = Exc CollaboratorError /\
  post_crisis_tweet cfg_none w event initial = (Exc RuntimeError, initial).
Proof.
  intros w event. split.
  - destruct (post_crisis_tweet_raises cfg_full w event initial) as (_ & _ & H).
    rewrite (H eq_refl eq_refl _ eq_refl). reflexivity.
  - apply (proj1 (post_crisis_tweet_raises cfg_none w event initial)).
    left. reflexivity.
Defined.

(* ===================================================================== *)
(** ** Further facts: one item, and the batch *)
(* ===================================================================== *)

Lemma process_event_filtered cfg w article s c :
  fst (classify_crisis cfg w (full_text article) s) = Ok c ->
  c <> py "CRISIS" ->
  process_event cfg w article s
  = (Ok tt, snd (classify_crisis cfg w (full_text article) s)).
Proof.
  intros H Hc. unfold process_event. cbv beta iota zeta delta [bind].
  change (fmt (a_title article) ++ [nl; nl] ++ fmt (a_description article))
    with (full_text article).
  destruct (classify_crisis cfg w (full_text article) s) as [r s1] eqn:E.
  simpl in H. subst r. rewrite (str_neqb c (py "CRISIS") Hc). reflexivity.
Qed.

Lemma process_event_total cfg w article s :
  exists s' evs,
    process_event cfg w article s = (Ok tt, s') /\
    trace s' = trace s ++ evs /\ one_dispatch evs.
Proof.
  destruct (classify_crisis_returns cfg w (full_text article) s)
    as (c & s1 & e1 & E1 & T1 & P1).
  destruct (str_eqb c (py "CRISIS")) eqn:Hc.
  - apply str_eqb_eq in Hc. subst c.
    assert (H : fst (classify_crisis cfg w (full_text article) s) = Ok (py "CRISIS"))
      by (rewrite E1; reflexivity).
    destruct (process_event_dispatch cfg w article s H)
      as (s' & r & before & post & E & T & R & D & O & Pp & _).
    exists s', (before ++ post). split; [exact E|]. split; [exact T|].
    right. exists r. rewrite rows_app, dispatched_app, posts_app, R, D, O.
    destruct Pp as [->|(text & Ht & ->)]; simpl.
    + auto.
    + split; [reflexivity|]. split; [reflexivity|]. right. exists text. auto.
  - assert (Hne : c <> py "CRISIS").
    { intros ->. vm_compute in Hc. discriminate. }
    assert (H : fst (classify_crisis cfg w (full_text article) s) = Ok c)
      by (rewrite E1; reflexivity).
    rewrite (process_event_filtered cfg w article s c H Hne), E1.
    exists s1, e1. split; [reflexivity|]. split; [exact T1|].
    left. apply enrichment_has_no_sink, P1.
Qed.


Lemma process_all_total cfg w articles n s :
  exists s' evs,
    process_all cfg w articles n s = (Ok (n + List.length articles), s') /\
    trace s' = trace s ++ evs /\
    map row_of (dispatched evs) = rows evs /\
    List.length (dispatched evs) <= List.length articles /\
    List.length (posts evs) <= List.length (dispatched evs).
Proof.
  revert n s. induction articles as [|article rest IH]; intros n s.
  - exists s, []. rewrite app_nil_r, Nat.add_0_r. repeat split; simpl; lia.
  - destruct (process_event_total cfg w article s) as (s1 & e1 & E1 & T1 & P1).
    destruct (IH (n + 1) s1) as (s2 & e2 & E2 & T2 & R2 & D2 & O2).
    exists s2, (e1 ++ e2).
    rewrite (process_all_step cfg w article rest n s s1 E1), E2.
    split; [f_equal; f_equal; simpl; lia|].
    split; [rewrite T2, T1, app_assoc; reflexivity|].
    rewrite dispatched_app, rows_app, posts_app, map_app, !length_app, R2.
    destruct P1 as [(R1 & D1 & O1)|(r & R1 & D1 & [O1|(text & _ & O1)])];
      rewrite R1, D1, O1; simpl; repeat split; lia.
Qed.


Lemma process_all_without_key cfg w articles n s :
  is_set (OPENAI_API_KEY cfg) = false ->
  process_all cfg w articles n s = (Ok (n + List.length articles), s).
Proof.
  intros Hk. revert n. induction articles as [|article rest IH]; intros n.
  - simpl. rewrite Nat.add_0_r. reflexivity.
  - assert (Hc : classify_crisis cfg w (full_text article) s = (Ok (py "NOT CRISIS"), s))
      by (rewrite classify_crisis_run, Hk; reflexivity).
    assert (E : process_event cfg w article s = (Ok tt, s)).
    { rewrite (process_event_filtered cfg w article s (py "NOT CRISIS"));
        [rewrite Hc; reflexivity | rewrite Hc; reflexivity | discriminate]. }
    rewrite (process_all_step cfg w article rest n s s E), IH.
    f_equal. f_equal. simpl. lia.
Qed.

(** X10.  Without an OpenAI key the whole batch is a no-op: every item is
    classified "NOT CRISIS" without any request, nothing is geocoded,
    written, saved or posted, the state is left as it was, and the items
    are all counted as processed. *)
Theorem main_without_key_is_noop cfg w all_articles s :
  is_set (OPENAI_API_KEY cfg) = false ->
  main cfg w all_articles s
  = (Ok (match all_articles with
         | [] => py "OK - No articles to process"
         | _ :: _ => py "OK"
         end, List.length all_articles), s).
Proof.
  intros Hk. destruct all_articles as [|article rest]; [reflexivity|].
  unfold main. cbv beta iota delta [bind].
  rewrite (process_all_without_key cfg w (article :: rest) 0 s Hk). reflexivity.
Qed.

(** Two items, every sink configured, no OpenAI key. *)
Lemma main_without_key_is_noop_witness :
  let cfg := {| OPENAI_API_KEY := None;
                OPENCAGE_API_KEY := OPENCAGE_API_KEY cfg_full;
                GOOGLE_SERVICE_ACCOUNT_JSON := GOOGLE_SERVICE_ACCOUNT_JSON cfg_full;
                GOOGLE_SHEET_ID := GOOGLE_SHEET_ID cfg_full;
                GCS_BUCKET_NAME := GCS_BUCKET_NAME cfg_full;
                TWITTER_CONSUMER_KEY := TWITTER_CONSUMER_KEY cfg_full;
                TWITTER_CONSUMER_SECRET := TWITTER_CONSUMER_SECRET cfg_full;
                TWITTER_ACCESS_TOKEN := TWITTER_ACCESS_TOKEN cfg_full;
                TWITTER_ACCESS_TOKEN_SECRET := TWITTER_ACCESS_TOKEN_SECRET cfg_full;
                google_api_libs := true; storage_lib := true; tweepy_lib := true |} in
  main cfg (world_of flood_reply jakarta_geo) [flood_article; jakarta_article] initial
  = (Ok (py "OK", 2), initial).
Proof.
  intros cfg.
  apply (main_without_key_is_noop cfg (world_of flood_reply jakarta_geo)
           [flood_article; jakarta_article] initial eq_refl).
Defined.

Lemma enrichment_is_no_sink_event (evs : list Event) (e : Event) :
  forallb is_enrichment evs = true -> In e evs -> is_enrichment e = true.
Proof. intros H Hin. rewrite forallb_forall in H. exact (H e Hin). Qed.

(** X11.  The record of an item classified as a crisis copies the title,
    the description and the URL of the item unchanged, takes its event type
    from [infer_event_type] on the combined text (one of the six labels),
    and has at most three donation links.  Whatever is appended to the
    sheet is the flattening of that record, and whatever is uploaded is
    that record. *)
Theorem record_copies_item cfg w article s :
  fst (classify_crisis cfg w (full_text article) s) = Ok (py "CRISIS") ->
  exists s' evs r,
    process_event cfg w article s = (Ok tt, s') /\
    trace s' = trace s ++ evs /\
    dispatched evs = [r] /\
    title r = a_title article /\
    description r = a_description article /\
    source_url r = a_url article /\
    event_type r = infer_event_type (full_text article) /\
    In (event_type r) event_types /\
    List.length (donation_links r) <= 3 /\
    (forall row, In (ESheetAppend row) evs -> row = row_of r) /\
    (forall key data, In (EGcsUpload key data) evs -> data = r).
Proof.
  intros H.
  destruct (process_event_crisis cfg w article s H)
    as (s' & r & enrich & sheet & gcs & post & E & T & Pe & Ps & Pg & Pp
        & _ & Hty & Hti & Hde & Hur & _ & _ & Hlen & _).
  exists s', (enrich ++ EWriteToSheet (row_of r) :: sheet
              ++ ESaveToGcs (event_id r) r :: gcs ++ post), r.
  split; [exact E|]. split; [exact T|].
  destruct (enrichment_has_no_sink enrich Pe) as (_ & D1 & _).
  split.
  { rewrite dispatched_app, D1. simpl. rewrite dispatched_app. simpl.
    rewrite dispatched_app.
    destruct Ps as [->| ->]; destruct Pg as [->|(key & [->| ->])];
      destruct Pp as [->|(text & _ & ->)]; reflexivity. }
  repeat (split; [assumption|]).
  split.
  { rewrite Hty. unfold infer_event_type, event_types.
    repeat match goal with
           | |- context [if existsb ?f ?l then _ else _] => destruct (existsb f l)
           end; simpl; tauto. }
  split; [exact Hlen|].
  split.
  - intros row Hin. apply in_app_or in Hin. destruct Hin as [Hin|Hin].
    { apply (enrichment_is_no_sink_event enrich _ Pe) in Hin. discriminate. }
    destruct Hin as [Hin|Hin]; [discriminate|].
    apply in_app_or in Hin. destruct Hin as [Hin|Hin].
    { destruct Ps as [->| ->]; [contradiction|].
      destruct Hin as [Hin|[]]. injection Hin as <-. reflexivity. }
    destruct Hin as [Hin|Hin]; [discriminate|].
    apply in_app_or in Hin. destruct Hin as [Hin|Hin].
    { destruct Pg as [->|(key & [->| ->])]; simpl in Hin;
        intuition discriminate. }
    destruct Pp as [->|(text & _ & ->)]; simpl in Hin; intuition discriminate.
  - intros key data Hin. apply in_app_or in Hin. destruct Hin as [Hin|Hin].
    { apply (enrichment_is_no_sink_event enrich _ Pe) in Hin. discriminate. }
    destruct Hin as [Hin|Hin]; [discriminate|].
    apply in_app_or in Hin. destruct Hin as [Hin|Hin].
    { destruct Ps as [->| ->]; simpl in Hin; intuition discriminate. }
    destruct Hin as [Hin|Hin]; [discriminate|].
    apply in_app_or in Hin. destruct Hin as [Hin|Hin].
    { destruct Pg as [->|(k & [->| ->])]; simpl in Hin.
      - contradiction.
      - destruct Hin as [Hin|[]]. injection Hin as _ <-. reflexivity.
      - destruct Hin as [Hin|[Hin|[]]]; [|discriminate].
        injection Hin as _ <-. reflexivity. }
    destruct Pp as [->|(text & _ & ->)]; simpl in Hin; intuition discriminate.
Qed.

(** The item of the end-to-end scenario. *)
Lemma record_copies_item_witness :
  exists s' evs r,
    process_event cfg_full (world_of flood_reply jakarta_geo) jakarta_article initial
    = (Ok tt, s') /\
    trace s' = trace initial ++ evs /\
    dispatched evs = [r] /\
    title r = Some (py "Flood devastates Jakarta") /\
    event_type r = py "Flood".
Proof.
  destruct (record_copies_item cfg_full (world_of flood_reply jakarta_geo)
              jakarta_article initial eq_refl)
    as (s' & evs & r & E & T & D & Hti & _ & _ & Hty & _).
  exists s', evs, r. repeat (split; [assumption|]). rewrite Hty. reflexivity.
Defined.

(** X12.  The order of the calls for an item classified as a crisis, with
    the key configured: the classification request, the impact request and
    the summary request, each on the combined text; then the geocoding
    request for the resolved location, unless the geocoder is not
    configured; then the donation request for the inferred event type; and
    only after all of these the sink events, the first of which is the
    entry of [write_to_sheet]. *)
Theorem process_event_call_order cfg w article s :
  is_set (OPENAI_API_KEY cfg) = true ->
  fst (classify_crisis cfg w (full_text article) s) = Ok (py "CRISIS") ->
  let text := full_text article in
  let location := or_default (a_location article) (py "Unknown") in
  exists s' geo row sinks,
    process_event cfg w article s = (Ok tt, s') /\
    trace s' = trace s
               ++ [EChat (classify_request text); EChat (impact_request text);
                   EChat (summary_request text)]
               ++ geo
               ++ [EChat (donations_request (infer_event_type text))]
               ++ EWriteToSheet row :: sinks /\
    (geo = [EGeocode location] \/
     geo = [] /\ is_set (OPENCAGE_API_KEY cfg) = false) /\
    forallb is_sink sinks = true.
Proof.
  intros Hk H text location. subst text.
  set (text := full_text article) in *.
  rewrite classify_crisis_run, Hk in H. simpl fst in H. injection H as Hc.
  unfold process_event. cbv beta iota zeta delta [bind].
  change (fmt (a_title article) ++ [nl; nl] ++ fmt (a_description article)) with text.
  change (or_default (a_location article) (py "Unknown")) with location.
  rewrite classify_crisis_run, Hk, Hc.
  change (negb (str_eqb (py "CRISIS") (py "CRISIS"))) with false. cbv beta iota.
  rewrite estimate_impact_run, Hk.
  destruct (match chat_create w _ (impact_request text) with
            | Ok content => _
            | Exc _ => _
            end) as [p sv].
  cbv beta iota. rewrite generate_summary_run, Hk. cbv beta iota.
  rewrite geocode_run.
  assert (Hloc : truthy location = true).
  { subst location. destruct (a_location article) as [[|c r]|]; reflexivity. }
  rewrite Hloc, andb_true_r.
  destruct (is_set (OPENCAGE_API_KEY cfg)) eqn:Hg.
  - destruct (match opencage_get w _ location with
              | GeoData (Some geometry :: _) => _
              | _ => _
              end) as [la ln].
    cbv beta iota. rewrite suggest_donations_run, Hk.
    cbv beta iota delta [ask]. cbn [tick trace after].
    match goal with
    | |- context [write_to_sheet cfg w ?row ?st] =>
        destruct (write_to_sheet_returns cfg w row st) as (s7 & e7 & E7 & T7 & P7);
        rewrite E7; cbv beta iota;
        match goal with
        | |- context [save_to_gcs cfg w ?eid ?r s7] =>
            destruct (save_to_gcs_returns cfg w eid r s7) as (s8 & e8 & E8 & T8 & P8);
            rewrite E8; cbv beta iota delta [try_except];
            destruct (tweet_crisis_returns cfg w r s8) as (s9 & e9 & E9 & T9 & P9);
            rewrite E9; cbv beta iota delta [ret];
            exists s9, [EGeocode location], row, (e7 ++ ESaveToGcs eid r :: e8 ++ e9)
        end
    end.
    split; [reflexivity|]. split.
    { rewrite T9, T8, T7. cbn [trace]. repeat rewrite <- app_assoc. reflexivity. }
    split; [left; reflexivity|].
    destruct P7 as [->| ->]; destruct P8 as [->|(key & [->| ->])];
      destruct P9 as [->|(tx & _ & ->)]; reflexivity.
  - cbv beta iota. rewrite suggest_donations_run, Hk.
    cbv beta iota delta [ask]. cbn [tick trace after].
    match goal with
    | |- context [write_to_sheet cfg w ?row ?st] =>
        destruct (write_to_sheet_returns cfg w row st) as (s7 & e7 & E7 & T7 & P7);
        rewrite E7; cbv beta iota;
        match goal with
        | |- context [save_to_gcs cfg w ?eid ?r s7] =>
            destruct (save_to_gcs_returns cfg w eid r s7) as (s8 & e8 & E8 & T8 & P8);
            rewrite E8; cbv beta iota delta [try_except];
            destruct (tweet_crisis_returns cfg w r s8) as (s9 & e9 & E9 & T9 & P9);
            rewrite E9; cbv beta iota delta [ret];
            exists s9, [], row, (e7 ++ ESaveToGcs eid r :: e8 ++ e9)
        end
    end.
    split; [reflexivity|]. split.
    { rewrite T9, T8, T7. cbn [trace]. repeat rewrite <- app_assoc. reflexivity. }
    split; [right; split; reflexivity|].
    destruct P7 as [->| ->]; destruct P8 as [->|(key & [->| ->])];
      destruct P9 as [->|(tx & _ & ->)]; reflexivity.
Qed.

(** The item of the end-to-end scenario: eleven events. *)
Lemma process_event_call_order_witness :
  let w := world_of flood_reply jakarta_geo in
  let text := full_text jakarta_article in
  exists s' row sinks,
    process_event cfg_full w jakarta_article initial = (Ok tt, s') /\
    trace s' = [EChat (classify_request text); EChat (impact_request text);
                EChat (summary_request text); EGeocode (py "Jakarta");
                EChat (donations_request (py "Flood"))]
               ++ EWriteToSheet row :: sinks /\
    forallb is_sink sinks = true.
Proof.
  intros w text.
  destruct (process_event_call_order cfg_full w jakarta_article initial eq_refl eq_refl)
    as (s' & geo & row & sinks & E & T & [->|[_ F]] & Hs); [|discriminate].
  exists s', row, sinks. split; [exact E|]. split; [exact T | exact Hs].
Defined.

(* ===================================================================== *)
(** ** Further facts: the source adapters *)
(* ===================================================================== *)

Lemma append_each_prefix {A B} (build : A -> typed B) (items : list A) (acc : list B) :
  exists good rest res,
    items = good ++ rest /\
    fst (append_each build items acc) = acc ++ res /\
    Forall2 (fun x b => build x = Value b) good res /\
    (rest = [] \/ exists bad rest', rest = bad :: rest' /\ build bad = TypeError).
Proof.
  revert acc. induction items as [|x items IH]; intros acc.
  - exists [], [], []. simpl. rewrite app_nil_r. repeat split; auto.
  - cbn [append_each]. destruct (build x) as [b|] eqn:E.
    + destruct (IH (acc ++ [b])) as (good & rest & res & Hi & Hr & Hf & Ht).
      exists (x :: good), rest, (b :: res). split; [rewrite Hi; reflexivity|].
      split; [rewrite Hr, <- app_assoc; reflexivity|].
      split; [constructor; assumption | exact Ht].
    + exists [], (x :: items), []. simpl. rewrite app_nil_r.
      repeat split; auto. right. exists x, items. auto.
Qed.

Lemma Forall2_map_eq {A B C} (R : A -> B -> Prop) (g : B -> C) (h : A -> C) l1 l2 :
  (forall x b, R x b -> g b = h x) -> Forall2 R l1 l2 -> map g l2 = map h l1.
Proof.
  intros H F. induction F as [|x b l1 l2 Hxb F IH]; [reflexivity|].
  simpl. rewrite (H x b Hxb), IH. reflexivity.
Qed.

Lemma Forall2_Forall_r {A B} (R : A -> B -> Prop) (P : B -> Prop) l1 l2 :
  (forall x b, R x b -> P b) -> Forall2 R l1 l2 -> Forall P l2.
Proof.
  intros H F. induction F as [|x b l1 l2 Hxb F IH]; constructor; eauto.
Qed.

Lemma Forall2_Forall_l {A B} (R : A -> B -> Prop) (P : A -> Prop) l1 l2 :
  (forall x b, R x b -> P x) -> Forall2 R l1 l2 -> Forall P l1.
Proof.
  intros H F. induction F as [|x b l1 l2 Hxb F IH]; constructor; eauto.
Qed.

Lemma news_article_value (item : NewsItem) (a : Fetched) :
  news_article item = Value a ->
  n_title item <> Null /\
  f_title a = get (n_title item) /\
  f_description a = or_default (get (n_description item)) [] /\
  f_url a = get (n_url item) /\
  f_published_at a = get (n_publishedAt item) /\
  f_source a = None.
Proof.
  unfold news_article. destruct (n_title item); simpl; intros H;
    try discriminate; injection H as <-; repeat split; discriminate.
Qed.

Lemma news_article_null (item : NewsItem) :
  news_article item = TypeError -> n_title item = Null.
Proof.
  unfold news_article. destruct (n_title item); simpl; intros H;
    try discriminate; reflexivity.
Qed.

(** X13.  [fetch_news] never raises and writes nothing.  Without a key it
    makes no request and returns no article; so it does when the request
    fails.  From a reply it builds one article per item, in order, up to
    the first item whose title is null, which ends the list: that item and
    all that follow are lost.  In each article the title, the URL and the
    date are those of the item ([None] where absent), and the description
    is a string, empty where the item has none or a null one. *)
Theorem fetch_news_stops_at_null_title src feeds limit s :
  (is_set (NEWS_API_KEY src) = false -> fetch_news src feeds limit s = (Ok [], s)) /\
  (is_set (NEWS_API_KEY src) = true ->
   newsapi_get feeds (tick s) limit = NewsRaises ->
   fst (fetch_news src feeds limit s) = Ok []) /\
  (exists articles s',
     fetch_news src feeds limit s = (Ok articles, s') /\ trace s' = trace s) /\
  (forall items,
     is_set (NEWS_API_KEY src) = true ->
     newsapi_get feeds (tick s) limit = NewsArticles items ->
     exists good rest articles,
       fst (fetch_news src feeds limit s) = Ok articles /\
       items = good ++ rest /\
       Forall (fun item => n_title item <> Null) good /\
       (rest = [] \/ exists bad rest', rest = bad :: rest' /\ n_title bad = Null) /\
       map f_title articles = map (fun item => get (n_title item)) good /\
       map f_description articles
       = map (fun item => or_default (get (n_description item)) []) good /\
       map f_url articles = map (fun item => get (n_url item)) good /\
       map f_published_at articles = map (fun item => get (n_publishedAt item)) good).
Proof.
  unfold fetch_news. split; [|split; [|split]].
  - intros ->. reflexivity.
  - intros -> H. cbn [negb]. run. rewrite H. reflexivity.
  - destruct (is_set (NEWS_API_KEY src)); cbn [negb]; [|exists [], s; auto].
    run. destruct (newsapi_get feeds (tick s) limit);
      do 2 eexists; split; reflexivity.
  - intros items -> H. cbn [negb]. run. rewrite H. cbn [fst].
    destruct (append_each_prefix news_article items [])
      as (good & rest & res & Hi & Hr & Hf & Ht).
    exists good, rest, res. simpl in Hr. rewrite Hr.
    split; [reflexivity|]. split; [exact Hi|].
    split.
    { apply (Forall2_Forall_l _ _ good res
               (fun x b Hb => proj1 (news_article_value x b Hb)) Hf). }
    split.
    { destruct Ht as [->|(bad & rest' & -> & Hb)]; [left; reflexivity|].
      right. exists bad, rest'. split; [reflexivity|].
      apply news_article_null, Hb. }
    repeat split;
      apply (Forall2_map_eq (fun x b => news_article x = Value b)); try exact Hf;
      intros x b Hb; apply news_article_value in Hb; tauto.
Qed.

(** Three items, the second with a null title: one article. *)
Lemma fetch_news_stops_at_null_title_witness :
  exists good rest articles,
    fst (fetch_news src_full feeds_demo 15 initial) = Ok articles /\
    [news_item (Text (py "Flood in Jakarta")); news_item Null;
     news_item (Text (py "Quake"))] = good ++ rest /\
    (rest = [] \/ exists bad rest', rest = bad :: rest' /\ n_title bad = Null) /\
    map f_title articles = map (fun item => get (n_title item)) good /\
    List.length articles = 1.
Proof.
  destruct (fetch_news_stops_at_null_title src_full feeds_demo 15 initial)
    as (_ & _ & _ & H).
  destruct (H _ eq_refl eq_refl)
    as (good & rest & articles & E & Hi & _ & Hr & Ht & _).
  exists good, rest, articles. repeat (split; [assumption|]).
  vm_compute in E. injection E as <-. reflexivity.
Defined.






Lemma rss_article_source (entry : Entry) : f_source (rss_article entry) = Some (py "RSS").
Proof. reflexivity. Qed.

Lemma fetch_rss_feeds_spec (feeds : Feeds) (limit : nat) (urls : list str)
    (articles : list Fetched) (s : State) :
  exists more s',
    fetch_rss_feeds feeds limit urls articles s = (Ok (articles ++ more), s') /\
    trace s' = trace s /\
    tick s' = tick s + List.length (filter (fun url => truthy (strip url)) urls) /\
    List.length more
    <= limit * List.length (filter (fun url => truthy (strip url)) urls) /\
    Forall (fun a => f_source a = Some (py "RSS")) more.
Proof.
  revert articles s. induction urls as [|url rest IH]; intros articles s.
  - exists [], s. rewrite app_nil_r. simpl. rewrite Nat.add_0_r.
    repeat split; [lia | constructor].
  - cbn [fetch_rss_feeds filter]. destruct (truthy (strip url)) eqn:B; cbn [negb].
    + run. destruct (feedparser_parse feeds (tick s) (strip url)) as [entries|e].
      * destruct (IH (articles ++ map rss_article (firstn limit entries))
                    {| trace := trace s; tick := S (tick s) |})
          as (more & s' & E & T & K & L & F).
        exists (map rss_article (firstn limit entries) ++ more), s'.
        rewrite E, app_assoc. split; [reflexivity|]. split; [exact T|].
        split; [rewrite K; simpl; lia|]. split.
        { rewrite length_app, length_map, length_firstn. simpl List.length. lia. }
        apply Forall_app. split; [|exact F].
        apply Forall_map. apply Forall_forall. intros x _. reflexivity.
      * destruct (IH articles {| trace := trace s; tick := S (tick s) |})
          as (more & s' & E & T & K & L & F).
        exists more, s'. rewrite E. split; [reflexivity|]. split; [exact T|].
        split; [rewrite K; simpl; lia|]. split; [simpl List.length; lia | exact F].
    + destruct (IH articles s) as (more & s' & E & T & K & L & F).
      exists more, s'. auto.
Qed.



Lemma reddit_post_fields (name : str) (submission : Submission) :
  f_title (reddit_post name submission) = Some (s_title submission) /\
  (f_description (reddit_post name submission) = [] -> s_title submission = []) /\
  f_source (reddit_post name submission) = Some (py "Reddit r/" ++ name).
Proof.
  unfold reddit_post. cbn [f_title f_description f_source].
  destruct (s_selftext submission); simpl; auto. repeat split. discriminate.
Qed.

Lemma filter_stickied (l : list Submission) :
  forallb s_stickied l = true ->
  filter (fun submission => negb (s_stickied submission)) l = [].
Proof.
  induction l as [|x l IH]; [reflexivity|]. simpl. intros H.
  apply andb_true_iff in H. destruct H as [Hx Hl]. rewrite Hx. simpl. auto.
Qed.

Lemma fetch_subreddits_spec (feeds : Feeds) (n : nat) (names : list str)
    (posts : list Fetched) (s : State) :
  exists more s',
    fetch_subreddits feeds n names posts s = (Ok (posts ++ more), s') /\
    trace s' = trace s /\
    tick s' = tick s + List.length names /\
    Forall (fun p =>
              exists title name,
                f_title p = Some title /\
                (f_description p = [] -> title = []) /\
                In name names /\
                f_source p = Some (py "Reddit r/" ++ name)) more /\
    ((forall t name k, forallb s_stickied (fst (subreddit_hot feeds t name k)) = true) ->
     more = []).
Proof.
  revert posts s. induction names as [|name rest IH]; intros posts s.
  - exists [], s. rewrite app_nil_r. simpl. rewrite Nat.add_0_r.
    repeat split. constructor.
  - cbn [fetch_subreddits]. run.
    set (kept := filter (fun submission => negb (s_stickied submission))
                        (fst (subreddit_hot feeds (tick s) name n))).
    destruct (IH (posts ++ map (reddit_post name) kept)
                {| trace := trace s; tick := S (tick s) |})
      as (more & s' & E & T & K & F & St).
    exists (map (reddit_post name) kept ++ more), s'.
    split.
    { destruct (snd (subreddit_hot feeds (tick s) name n));
        rewrite E, app_assoc; reflexivity. }
    split; [exact T|]. split; [rewrite K; simpl; lia|]. split.
    + apply Forall_app. split.
      * apply Forall_map. apply Forall_forall. intros x _.
        destruct (reddit_post_fields name x) as (H1 & H2 & H3).
        exists (s_title x), name. repeat split; auto. left. reflexivity.
      * eapply Forall_impl; [|exact F].
        intros p (title & nm & H1 & H2 & H3 & H4).
        exists title, nm. repeat split; auto. right. exact H3.
    + intros Hall. rewrite (St Hall), app_nil_r. subst kept.
      rewrite (filter_stickied _ (Hall (tick s) name n)). reflexivity.
Qed.



(* ===================================================================== *)
(** ** Further facts: the entry point *)
(* ===================================================================== *)

Lemma fetch_news_returns src feeds limit s :
  exists l s', fetch_news src feeds limit s = (Ok l, s') /\ trace s' = trace s.
Proof.
  unfold fetch_news. destruct (is_set (NEWS_API_KEY src)); cbn [negb];
    [|exists [], s; auto].
  run. destruct (newsapi_get feeds (tick s) limit); do 2 eexists; split; reflexivity.
Qed.

Lemma fetch_rss_articles_returns src feeds limit s :
  exists l s', fetch_rss_articles src feeds limit s = (Ok l, s') /\ trace s' = trace s.
Proof.
  unfold fetch_rss_articles. destruct (negb (feedparser_lib src)); [exists [], s; auto|].
  destruct (_ || _); [exists [], s; auto|].
  destruct (fetch_rss_feeds_spec feeds limit (RSS_FEED_URLS src) [] s)
    as (more & s' & E & T & _).
  exists more, s'. auto.
Qed.

Lemma fetch_twitter_posts_returns src feeds limit s :
  exists l s', fetch_twitter_posts src feeds limit s = (Ok l, s') /\ trace s' = trace s.
Proof.
  unfold fetch_twitter_posts. destruct (is_set (TWITTER_BEARER_TOKEN src)); cbn [negb];
    [|exists [], s; auto].
  run. destruct (twitter_search feeds (tick s) twitter_query (Nat.min limit 100))
    as [|[data|]]; do 2 eexists; split; reflexivity.
Qed.

Lemma fetch_reddit_posts_returns src feeds limit s :
  exists l s', fetch_reddit_posts src feeds limit s = (Ok l, s') /\ trace s' = trace s.
Proof.
  unfold fetch_reddit_posts. destruct (negb (praw_lib src)); [exists [], s; auto|].
  destruct (_ || _); [exists [], s; auto|].
  run. destruct (praw_Reddit feeds (tick s)) as [[]|e].
  - destruct (fetch_subreddits_spec feeds
                (Nat.max 1 (limit / List.length crisis_subreddits))
                crisis_subreddits [] {| trace := trace s; tick := S (tick s) |})
      as (more & s' & E & T & _).
    exists more, s'. auto.
  - do 2 eexists. split; reflexivity.
Qed.

(** X17.  [main] as a whole never raises.  It collects the items of the
    news API (only when its key is set), of the feeds, of the Twitter
    search and of Reddit, in this order, each adapter starting where the
    previous one stopped, and hands their concatenation to the batch loop.
    The count it logs is the number of items collected; it answers
    "OK - No articles to process", having written nothing, exactly when
    nothing was collected, and "OK" otherwise; and it saves at most one
    record per collected item. *)
Theorem main_request_collects_in_order src feeds cfg w s :
  exists news rss tweets reddit s1 s2 s3 s4 s' evs,
    (if is_set (NEWS_API_KEY src) then fetch_news src feeds 15 s else (Ok [], s))
    = (Ok news, s1) /\
    fetch_rss_articles src feeds 10 s1 = (Ok rss, s2) /\
    fetch_twitter_posts src feeds 15 s2 = (Ok tweets, s3) /\
    fetch_reddit_posts src feeds 15 s3 = (Ok reddit, s4) /\
    main_request src feeds cfg w s
    = main cfg w (map article_of (news ++ rss ++ tweets ++ reddit)) s4 /\
    main_request src feeds cfg w s
    = (Ok (match news ++ rss ++ tweets ++ reddit with
           | [] => py "OK - No articles to process"
           | _ :: _ => py "OK"
           end, List.length (news ++ rss ++ tweets ++ reddit)), s') /\
    trace s' = trace s ++ evs /\
    (news ++ rss ++ tweets ++ reddit = [] -> evs = []) /\
    map row_of (dispatched evs) = rows evs /\
    List.length (dispatched evs) <= List.length (news ++ rss ++ tweets ++ reddit).
Proof.
  assert (N : exists news s1,
             (if is_set (NEWS_API_KEY src) then fetch_news src feeds 15 s
              else (Ok [], s)) = (Ok news, s1) /\ trace s1 = trace s).
  { destruct (is_set (NEWS_API_KEY src)); [apply fetch_news_returns|].
    exists [], s. auto. }
  destruct N as (news & s1 & E1 & T1).
  destruct (fetch_rss_articles_returns src feeds 10 s1) as (rss & s2 & E2 & T2).
  destruct (fetch_twitter_posts_returns src feeds 15 s2) as (tweets & s3 & E3 & T3).
  destruct (fetch_reddit_posts_returns src feeds 15 s3) as (reddit & s4 & E4 & T4).
  set (all := news ++ rss ++ tweets ++ reddit).
  assert (M : main_request src feeds cfg w s = main cfg w (map article_of all) s4).
  { unfold main_request. cbv beta iota zeta delta [bind].
    replace ((if is_set (NEWS_API_KEY src) then fetch_news src feeds 15 else ret []) s)
      with (Ok news, s1)
      by (rewrite <- E1; destruct (is_set (NEWS_API_KEY src)); reflexivity).
    rewrite E2, E3, E4. reflexivity. }
  assert (R : exists s' evs,
             main cfg w (map article_of all) s4
             = (Ok (match all with
                    | [] => py "OK - No articles to process"
                    | _ :: _ => py "OK"
                    end, List.length all), s') /\
             trace s' = trace s4 ++ evs /\
             (all = [] -> evs = []) /\
             map row_of (dispatched evs) = rows evs /\
             List.length (dispatched evs) <= List.length all).
  { destruct all as [|a rest].
    - exists s4, []. rewrite app_nil_r. repeat split. simpl. lia.
    - destruct (process_all_total cfg w (article_of a :: map article_of rest) 0 s4)
        as (s' & evs & E & T & Rw & D & _).
      cbn [List.length] in E, D. rewrite length_map in E, D.
      exists s', evs. cbn [map List.length]. unfold main.
      cbv beta iota delta [bind]. rewrite E.
      split; [reflexivity|]. split; [exact T|]. split; [discriminate|].
      split; [exact Rw | exact D]. }
  destruct R as (s' & evs & E & T & Z & Rw & D).
  exists news, rss, tweets, reddit, s1, s2, s3, s4, s', evs.
  split; [exact E1|]. split; [exact E2|]. split; [exact E3|]. split; [exact E4|].
  split; [exact M|]. split; [rewrite M; exact E|].
  split; [rewrite T, T4, T3, T2, T1; reflexivity|].
  split; [exact Z|]. split; [exact Rw | exact D].
Qed.

(** X18.  With no source configured [main] collects nothing: it asks no
    adapter service, runs no enrichment, writes nothing, and answers
    "OK - No articles to process". *)
Theorem main_request_without_sources src feeds cfg w s :
  is_set (NEWS_API_KEY src) = false ->
  feedparser_lib src = false \/ is_set (RSS_FEED_URLS_env src) = false ->
  is_set (TWITTER_BEARER_TOKEN src) = false ->
  praw_lib src = false \/ is_set (REDDIT_CLIENT_ID src) = false
  \/ is_set (REDDIT_CLIENT_SECRET src) = false ->
  main_request src feeds cfg w s = (Ok (py "OK - No articles to process", 0), s).
Proof.
  intros Hn Hr Ht Hd. unfold main_request. cbv beta iota zeta delta [bind].
  rewrite Hn.
  assert (E2 : fetch_rss_articles src feeds 10 s = (Ok [], s)).
  { unfold fetch_rss_articles, RSS_FEED_URLS. destruct Hr as [-> | H]; [reflexivity|].
    destruct (feedparser_lib src); [|reflexivity].
    destruct (RSS_FEED_URLS_env src) as [[|c r]|]; try discriminate; reflexivity. }
  assert (E3 : fetch_twitter_posts src feeds 15 s = (Ok [], s)).
  { unfold fetch_twitter_posts. rewrite Ht. reflexivity. }
  assert (E4 : fetch_reddit_posts src feeds 15 s = (Ok [], s)).
  { unfold fetch_reddit_posts. destruct Hd as [->|[H|H]]; [reflexivity | |]; rewrite H.
    - destruct (praw_lib src); reflexivity.
    - destruct (praw_lib src); [|reflexivity]. rewrite orb_true_r. reflexivity. }
  unfold ret at 1. cbv beta iota. rewrite E2, E3, E4. reflexivity.
Qed.

(** Nothing configured at all. *)
Lemma main_request_without_sources_witness :
  main_request src_none feeds_none cfg_full (world_of flood_reply GeoRaises) initial
  = (Ok (py "OK - No articles to process", 0), initial).
Proof.
  apply (main_request_without_sources src_none feeds_none cfg_full
           (world_of flood_reply GeoRaises) initial eq_refl).
  - left. reflexivity.
  - reflexivity.
  - left. reflexivity.
Defined.

(** Every source answering: one news article, the three entries of the
    first feed, two tweets and eleven posts; seventeen items, all classified
    as crises by a service that answers "CRISIS". *)
Lemma main_request_demo :
  let r := main_request src_full feeds_demo cfg_full
             (world_of flood_reply GeoRaises) initial in
  fst r = Ok (py "OK", 17) /\
  List.length (dispatched (trace (snd r))) = 17 /\
  List.length (posts (trace (snd r))) = 17.
Proof. vm_compute. repeat split. Qed.

(* ===================================================================== *)
(** ** Further facts: parsing *)
(* ===================================================================== *)











(* ===================================================================== *)
(** ** Further facts: the location of collected items *)
(* ===================================================================== *)

Lemma process_event_location cfg w article s :
  exists s' evs,
    process_event cfg w article s = (Ok tt, s') /\
    trace s' = trace s ++ evs /\
    Forall (fun r => location r = or_default (a_location article) (py "Unknown"))
           (dispatched evs).
Proof.
  destruct (classify_crisis_returns cfg w (full_text article) s)
    as (c & s1 & e1 & E1 & T1 & P1).
  destruct (str_eqb c (py "CRISIS")) eqn:Hc.
  - apply str_eqb_eq in Hc. subst c.
    assert (H : fst (classify_crisis cfg w (full_text article) s) = Ok (py "CRISIS"))
      by (rewrite E1; reflexivity).
    destruct (process_event_dispatch cfg w article s H)
      as (s' & r & before & post & E & T & R & D & O & Pp & Hl & _).
    exists s', (before ++ post). split; [exact E|]. split; [exact T|].
    rewrite dispatched_app, D.
    destruct Pp as [->|(text & _ & ->)]; simpl; repeat constructor; exact Hl.
  - assert (Hne : c <> py "CRISIS").
    { intros ->. vm_compute in Hc. discriminate. }
    assert (H : fst (classify_crisis cfg w (full_text article) s) = Ok c)
      by (rewrite E1; reflexivity).
    rewrite (process_event_filtered cfg w article s c H Hne), E1.
    exists s1, e1. split; [reflexivity|]. split; [exact T1|].
    destruct (enrichment_has_no_sink e1 P1) as (_ & -> & _). constructor.
Qed.

Lemma process_all_locations cfg w articles n s :
  Forall (fun a => a_location a = None) articles ->
  exists s' evs,
    process_all cfg w articles n s = (Ok (n + List.length articles), s') /\
    trace s' = trace s ++ evs /\
    Forall (fun r => location r = py "Unknown") (dispatched evs).
Proof.
  revert n s. induction articles as [|article rest IH]; intros n s Hall.
  - exists s, []. rewrite app_nil_r, Nat.add_0_r. repeat split. constructor.
  - inversion Hall as [|? ? Ha Hrest]; subst.
    destruct (process_event_location cfg w article s) as (s1 & e1 & E1 & T1 & L1).
    destruct (IH (n + 1) s1 Hrest) as (s2 & e2 & E2 & T2 & L2).
    exists s2, (e1 ++ e2).
    rewrite (process_all_step cfg w article rest n s s1 E1), E2.
    split; [f_equal; f_equal; simpl; lia|].
    split; [rewrite T2, T1, app_assoc; reflexivity|].
    rewrite dispatched_app. apply Forall_app. split; [|exact L2].
    rewrite Ha in L1. exact L1.
Qed.

Lemma append_each_all {A B} (build : A -> typed B) (P : B -> Prop)
    (items : list A) :
  (forall x b, build x = Value b -> P b) ->
  Forall P (fst (append_each build items [])).
Proof.
  intros H. destruct (append_each_prefix build items [])
    as (good & rest & res & _ & Hr & Hf & _).
  simpl in Hr. rewrite Hr.
  apply (Forall2_Forall_r (fun x b => build x = Value b) P good res H Hf).
Qed.

Lemma fetch_news_locations src feeds limit s :
  exists l s', fetch_news src feeds limit s = (Ok l, s') /\ trace s' = trace s /\
               Forall (fun f => f_location f = None) l.
Proof.
  unfold fetch_news. destruct (is_set (NEWS_API_KEY src)); cbn [negb];
    [|exists [], s; repeat split; constructor].
  run. destruct (newsapi_get feeds (tick s) limit) as [|items];
    do 2 eexists; (split; [reflexivity|]); (split; [reflexivity|]);
    [constructor|].
  apply append_each_all. intros x b. unfold news_article.
  destruct (add_str _ _); [|discriminate]. intros H. injection H as <-. reflexivity.
Qed.

Lemma fetch_twitter_posts_locations src feeds limit s :
  exists l s', fetch_twitter_posts src feeds limit s = (Ok l, s') /\
               trace s' = trace s /\ Forall (fun f => f_location f = None) l.
Proof.
  unfold fetch_twitter_posts. destruct (is_set (TWITTER_BEARER_TOKEN src)); cbn [negb];
    [|exists [], s; repeat split; constructor].
  run. destruct (twitter_search feeds (tick s) twitter_query (Nat.min limit 100))
    as [|[data|]];
    do 2 eexists; (split; [reflexivity|]); (split; [reflexivity|]);
    try constructor.
  apply append_each_all. intros x b. unfold twitter_post.
  destruct (len _); [|discriminate]. intros H. injection H as <-. reflexivity.
Qed.

Lemma fetch_rss_feeds_locations feeds limit urls articles s :
  Forall (fun f => f_location f = None) articles ->
  exists l s', fetch_rss_feeds feeds limit urls articles s = (Ok l, s') /\
               trace s' = trace s /\ Forall (fun f => f_location f = None) l.
Proof.
  revert articles s. induction urls as [|url rest IH]; intros articles s Ha.
  - exists articles, s. auto.
  - cbn [fetch_rss_feeds]. destruct (truthy (strip url)); cbn [negb]; [|apply IH, Ha].
    run. destruct (feedparser_parse feeds (tick s) (strip url)) as [entries|e].
    + destruct (IH (articles ++ map rss_article (firstn limit entries))
                  {| trace := trace s; tick := S (tick s) |}) as (l & s' & E & T & F).
      { apply Forall_app. split; [exact Ha|].
        apply Forall_map. apply Forall_forall. intros x _. reflexivity. }
      exists l, s'. auto.
    + destruct (IH articles {| trace := trace s; tick := S (tick s) |} Ha)
        as (l & s' & E & T & F).
      exists l, s'. auto.
Qed.

Lemma fetch_rss_articles_locations src feeds limit s :
  exists l s', fetch_rss_articles src feeds limit s = (Ok l, s') /\
               trace s' = trace s /\ Forall (fun f => f_location f = None) l.
Proof.
  unfold fetch_rss_articles.
  destruct (negb (feedparser_lib src)); [exists [], s; repeat split; constructor|].
  destruct (_ || _); [exists [], s; repeat split; constructor|].
  apply fetch_rss_feeds_locations. constructor.
Qed.

Lemma fetch_subreddits_locations feeds n names posts s :
  Forall (fun f => f_location f = None) posts ->
  exists l s', fetch_subreddits feeds n names posts s = (Ok l, s') /\
               trace s' = trace s /\ Forall (fun f => f_location f = None) l.
Proof.
  revert posts s. induction names as [|name rest IH]; intros posts s Hp.
  - exists posts, s. auto.
  - cbn [fetch_subreddits]. run.
    set (kept := filter (fun submission => negb (s_stickied submission))
                        (fst (subreddit_hot feeds (tick s) name n))).
    destruct (IH (posts ++ map (reddit_post name) kept)
                {| trace := trace s; tick := S (tick s) |}) as (l & s' & E & T & F).
    { apply Forall_app. split; [exact Hp|].
      apply Forall_map. apply Forall_forall. intros x _. reflexivity. }
    exists l, s'. split; [|auto].
    destruct (snd (subreddit_hot feeds (tick s) name n)); exact E.
Qed.

Lemma fetch_reddit_posts_locations src feeds limit s :
  exists l s', fetch_reddit_posts src feeds limit s = (Ok l, s') /\
               trace s' = trace s /\ Forall (fun f => f_location f = None) l.
Proof.
  unfold fetch_reddit_posts.
  destruct (negb (praw_lib src)); [exists [], s; repeat split; constructor|].
  destruct (_ || _); [exists [], s; repeat split; constructor|].
  run. destruct (praw_Reddit feeds (tick s)) as [[]|e].
  - destruct (fetch_subreddits_locations feeds
                (Nat.max 1 (limit / List.length crisis_subreddits))
                crisis_subreddits [] {| trace := trace s; tick := S (tick s) |})
      as (l & s' & E & T & F); [constructor|].
    exists l, s'. auto.
  - do 2 eexists. split; [reflexivity|]. split; [reflexivity | constructor].
Qed.

(** X21.  No item that [main] collects carries a location, because every
    adapter takes it from [extract_location]; so every record that a run
    of [main] saves has the location "Unknown", whatever the sources and
    the services answer. *)
Theorem main_request_locations_unknown src feeds cfg w s :
  exists result s' evs,
    main_request src feeds cfg w s = (Ok result, s') /\
    trace s' = trace s ++ evs /\
    Forall (fun r => location r = py "Unknown") (dispatched evs).
Proof.
  assert (N : exists news s1,
             (if is_set (NEWS_API_KEY src) then fetch_news src feeds 15 else ret []) s
             = (Ok news, s1) /\ trace s1 = trace s /\
             Forall (fun f => f_location f = None) news).
  { destruct (is_set (NEWS_API_KEY src)); [apply fetch_news_locations|].
    exists [], s. repeat split. constructor. }
  destruct N as (news & s1 & E1 & T1 & L1).
  destruct (fetch_rss_articles_locations src feeds 10 s1) as (rss & s2 & E2 & T2 & L2).
  destruct (fetch_twitter_posts_locations src feeds 15 s2)
    as (tweets & s3 & E3 & T3 & L3).
  destruct (fetch_reddit_posts_locations src feeds 15 s3)
    as (reddit & s4 & E4 & T4 & L4).
  unfold main_request. cbv beta iota zeta delta [bind].
  rewrite E1, E2, E3, E4.
  assert (L : Forall (fun a => a_location a = None)
                (map article_of (news ++ rss ++ tweets ++ reddit))).
  { apply Forall_map. repeat (apply Forall_app; split); assumption. }
  destruct (map article_of (news ++ rss ++ tweets ++ reddit)) as [|a rest] eqn:A.
  - do 2 eexists. exists []. split; [reflexivity|].
    rewrite app_nil_r. split; [congruence | constructor].
  - destruct (process_all_locations cfg w (a :: rest) 0 s4 L)
      as (s' & evs & E & T & F).
    unfold main. cbv beta iota delta [bind]. rewrite E.
    do 2 eexists. exists evs. split; [reflexivity|].
    split; [rewrite T, T4, T3, T2, T1; reflexivity | exact F].
Qed.

